(** * social-mention-webhook: mention extraction, handshake and dispatch

    A shallow embedding of the webhook service.  Two generations of the
    service live in the repository:

    - the TypeScript service: [config] (src/config/index.ts), the
      Facebook and Instagram services ([processFacebookWebhook],
      [getPageAccessToken], [getFacebookPostDetails],
      [processInstagramWebhook], ...) and the webhook controller
      ([verifyWebhook], [processWebhook]);
    - the stand-alone server webhook-server.js, modelled in [Module Legacy],
      and its revised copy, modelled in [Module LegacyRevised].

    Webhook bodies are whatever [JSON.parse] produced, so every handler is
    modelled over untyped JSON values with the JavaScript rules for property
    access, truthiness and [includes].  Exceptions, the network and the
    mailer are explicit: a computation returns either a value or a thrown
    error, together with the list of externally visible events it emitted.
    Calls to the logger are not events; of a log line only the conversion of
    a payload value to a string is kept, where it can throw. *)

From Stdlib Require Import ZArith Ascii DecimalString.
From stdpp Require Import base option list strings gmap sorting.

Local Open Scope Z_scope.

#[local] Set Warnings "-register-all".

(** ** Strings *)

Module Str.

(** [String.prototype.includes]: is [needle] a contiguous part of [hay]? *)
Fixpoint includes (needle hay : string) : bool :=
  String.prefix needle hay ||
  match hay with
  | EmptyString => false
  | String _ rest => includes needle rest
  end.

Definition startsWith (pre s : string) : bool := String.prefix pre s.

(** The literal-substring relation the specification speaks of. *)
Definition is_substring (needle hay : string) : Prop :=
  ∃ before after : string, hay = before +:+ needle +:+ after.

(** [String.prototype.toLowerCase], on the ASCII letters. *)
Definition lower_ascii (c : ascii) : ascii :=
  let n := Ascii.N_of_ascii c in
  if ((65 <=? n) && (n <=? 90))%N then Ascii.ascii_of_N (n + 32) else c.

Fixpoint toLowerCase (s : string) : string :=
  match s with
  | EmptyString => EmptyString
  | String c rest => String (lower_ascii c) (toLowerCase rest)
  end.

(** The part of [s] after its first [n] characters. *)
Fixpoint drop (n : nat) (s : string) : string :=
  match n, s with
  | O, _ => s
  | S _, EmptyString => EmptyString
  | S m, String _ rest => drop m rest
  end.

(** [s.split(c)] for a one-character separator. *)
Fixpoint split (c : ascii) (s : string) : list string :=
  match s with
  | EmptyString => [EmptyString]
  | String a rest =>
      if Ascii.eqb a c then EmptyString :: split c rest
      else match split c rest with
           | [] => [String a EmptyString]
           | piece :: pieces => String a piece :: pieces
           end
  end.

(** White space removed by [trim]: the ASCII blanks and line ends. *)
Definition is_space (c : ascii) : bool :=
  let n := Ascii.N_of_ascii c in
  ((n =? 32) || ((9 <=? n) && (n <=? 13)))%N.

Fixpoint trimStart (s : string) : string :=
  match s with
  | EmptyString => EmptyString
  | String c rest => if is_space c then trimStart rest else s
  end.

Fixpoint trimEnd (s : string) : string :=
  match s with
  | EmptyString => EmptyString
  | String c rest =>
      match trimEnd rest with
      | EmptyString => if is_space c then EmptyString else String c EmptyString
      | kept => String c kept
      end
  end.

Definition trim (s : string) : string := trimEnd (trimStart s).

Definition nonempty (s : string) : bool :=
  match s with EmptyString => false | String _ _ => true end.

(** One-character pieces of a string, as iteration over it yields them. *)
Fixpoint chars (s : string) : list string :=
  match s with
  | EmptyString => []
  | String c rest => String c EmptyString :: chars rest
  end.

End Str.

(** ** JSON values and the JavaScript operations applied to them *)

(** A value as [JSON.parse] yields it, or [undefined].  Numbers are the
    integers; an object lists its own properties. *)
Inductive JValue : Type :=
| JUndefined
| JNull
| JBool (b : bool)
| JNum (n : Z)
| JStr (s : string)
| JArr (items : list JValue)
| JObj (fields : list (string * JValue)).

(** A thrown JavaScript error. *)
Inductive JsError : Type :=
| TypeError (what : string)
| NetworkError
| ErrorMsg (what : string).

(** Outcome of evaluating an expression that may throw. *)
Inductive Result (A : Type) : Type :=
| Ok (a : A)
| Throw (e : JsError).
Arguments Ok {A} a.
Arguments Throw {A} e.

Module Js.

(** Own-property lookup in an object literal; the first binding of a key
    is the live one. *)
Fixpoint assoc {A : Type} (k : string) (fields : list (string * A)) : option A :=
  match fields with
  | [] => None
  | (k', v) :: rest => if String.eqb k k' then Some v else assoc k rest
  end.

Definition truthy (v : JValue) : bool :=
  match v with
  | JUndefined | JNull => false
  | JBool b => b
  | JNum n => negb (n =? 0)
  | JStr s => Str.nonempty s
  | JArr _ | JObj _ => true
  end.

Definition nullish (v : JValue) : bool :=
  match v with JUndefined | JNull => true | _ => false end.

(** [a || b] *)
Definition or (a b : JValue) : JValue := if truthy a then a else b.

Definition of_option (o : option JValue) : JValue := default JUndefined o.

Definition string_of_Z (n : Z) : string := NilZero.string_of_int (Z.to_int n).

(** [v.k] for a data property [k]: reading from [undefined] or [null]
    throws, a missing property reads as [undefined]. *)
Definition get (v : JValue) (k : string) : Result JValue :=
  match v with
  | JUndefined | JNull => Throw (TypeError k)
  | JObj fields => Ok (of_option (assoc k fields))
  | JArr items =>
      Ok (if String.eqb k "length" then JNum (Z.of_nat (length items)) else JUndefined)
  | JStr s =>
      Ok (if String.eqb k "length" then JNum (Z.of_nat (String.length s)) else JUndefined)
  | JBool _ | JNum _ => Ok JUndefined
  end.

(** [v[i]] for a numeric index. *)
Definition get_index (v : JValue) (i : nat) : Result JValue :=
  match v with
  | JUndefined | JNull => Throw (TypeError "index")
  | JArr items => Ok (of_option (items !! i))
  | JStr s =>
      Ok (match String.get i s with
          | Some c => JStr (String c EmptyString)
          | None => JUndefined
          end)
  | JObj fields => Ok (of_option (assoc (string_of_Z (Z.of_nat i)) fields))
  | JBool _ | JNum _ => Ok JUndefined
  end.

(** [v?.k] *)
Definition get_opt (v : JValue) (k : string) : JValue :=
  match get v k with
  | Ok x => x
  | Throw _ => JUndefined
  end.

(** [v === s] for a string literal [s]. *)
Definition is_str (v : JValue) (s : string) : bool :=
  match v with JStr s' => String.eqb s' s | _ => false end.

(** [v === n] for a number literal [n]. *)
Definition is_num (v : JValue) (n : Z) : bool :=
  match v with JNum n' => n' =? n | _ => false end.

(** [v.includes(needle)] for a string [needle]: a substring test on
    strings, a membership test on arrays, and a [TypeError] elsewhere
    (the property is not a function). *)
Definition includes (v : JValue) (needle : string) : Result bool :=
  match v with
  | JStr s => Ok (Str.includes needle s)
  | JArr items => Ok (existsb (λ x, is_str x needle) items)
  | _ => Throw (TypeError "includes is not a function")
  end.

(** The receiver of a call [v.charAt(...)]: [v] has to be a string. *)
Definition string_receiver (v : JValue) : Result string :=
  match v with
  | JStr s => Ok s
  | _ => Throw (TypeError "charAt is not a function")
  end.

(** [v.toLowerCase()] *)
Definition toLowerCase (v : JValue) : Result string :=
  match v with
  | JStr s => Ok (Str.toLowerCase s)
  | _ => Throw (TypeError "toLowerCase is not a function")
  end.

(** The values a [for ... of] loop over [v] visits. *)
Definition iterate (v : JValue) : Result (list JValue) :=
  match v with
  | JArr items => Ok items
  | JStr s => Ok (JStr <$> Str.chars s)
  | _ => Throw (TypeError "not iterable")
  end.

(** All the results of a list of evaluations, or the first error. *)
Fixpoint collect {A : Type} (rs : list (Result A)) : Result (list A) :=
  match rs with
  | [] => Ok []
  | Ok a :: rest =>
      match collect rest with
      | Ok others => Ok (a :: others)
      | Throw e => Throw e
      end
  | Throw e :: _ => Throw e
  end.

(** String conversion, as a template literal or a property key applies it.
    An object converts through the [toString] it inherits; one that has a
    property of that name of its own, which parsed JSON never makes a
    function, cannot be converted. *)
Fixpoint toString (v : JValue) : Result string :=
  match v with
  | JUndefined => Ok "undefined"
  | JNull => Ok "null"
  | JBool true => Ok "true"
  | JBool false => Ok "false"
  | JNum n => Ok (string_of_Z n)
  | JStr s => Ok s
  | JArr items =>
      match collect (map (λ x, match x with
                               | JUndefined | JNull => Ok EmptyString
                               | _ => toString x
                               end) items) with
      | Ok pieces => Ok (String.concat "," pieces)
      | Throw e => Throw e
      end
  | JObj fields =>
      match assoc "toString" fields with
      | Some _ => Throw (TypeError "Cannot convert object to primitive value")
      | None => Ok "[object Object]"
      end
  end.

(** [{...a, ...b}]: the properties of [b] shadow those of [a]. *)
Definition spread (a b : list (string * JValue)) : list (string * JValue) := b ++ a.

(** Own properties a spread copies out of a value. *)
Definition own_fields (v : JValue) : list (string * JValue) :=
  match v with JObj fields => fields | _ => [] end.

End Js.

(** ** Configuration (src/config/index.ts) *)

Module Page.
Record t : Type := mk {
  id : string;
  name : string;
  pageAccessToken : string;
  instagramUsername : option string
}.
End Page.

(** The [meta] part of [config] that the services read. *)
Record Config : Type := {
  verifyToken : string;
  pages : list Page.t;
  businessIgUsernames : list string
}.

Section Configuration.

(** [process.env] *)
Variable env : gmap string string.

(** [process.env[k] || ''] *)
Definition env_or_empty (k : string) : string := default "" (env !! k).

(** [process.env[k] || undefined] *)
Definition env_or_undefined (k : string) : option string :=
  match env !! k with
  | Some v => if Str.nonempty v then Some v else None
  | None => None
  end.

Definition extractBusinessIgUsernames : list string :=
  let usernamesStr := env_or_empty "BUSINESS_IG_USERNAMES" in
  List.filter Str.nonempty (map Str.trim (Str.split "," usernamesStr)).

(** The body of the [forEach] in [extractPages]: the page pushed for one
    [PAGE_ID_x] key, if any. *)
Definition page_of_key (idKey : string) : option Page.t :=
  let index := Str.drop 8 idKey in
  let id := env_or_empty idKey in
  let name := env_or_empty ("PAGE_NAME_" +:+ index) in
  let token := env_or_empty ("PAGE_TOKEN_" +:+ index) in
  let igUsername := env_or_undefined ("PAGE_IG_USERNAME_" +:+ index) in
  if Str.nonempty id && Str.nonempty name && Str.nonempty token
  then Some (Page.mk id name token igUsername)
  else None.

(** [Object.keys(process.env)] filtered and sorted, then the [forEach]. *)
Definition extractPages : list Page.t :=
  let pageIdKeys :=
    merge_sort String.le
      (List.filter (Str.startsWith "PAGE_ID_") (map fst (map_to_list env))) in
  omap page_of_key pageIdKeys.

Definition getBusinessIgUsernames : list string :=
  let explicitUsernames := extractBusinessIgUsernames in
  if (0 <? Z.of_nat (length explicitUsernames))
  then explicitUsernames
  else omap Page.instagramUsername extractPages.

Definition config : Config :=
  {| verifyToken := env_or_empty "META_VERIFY_TOKEN";
     pages := extractPages;
     businessIgUsernames := getBusinessIgUsernames |}.

End Configuration.

(** What construction guarantees about a configuration. *)
Record config_ok (cfg : Config) : Prop := {
  pages_filled :
    Forall (λ p, Page.id p ≠ "" ∧ Page.name p ≠ "" ∧ Page.pageAccessToken p ≠ "")
           (pages cfg);
  pages_ig_filled : Forall (λ p, Page.instagramUsername p ≠ Some "") (pages cfg);
  usernames_filled : Forall (λ u, u ≠ "") (businessIgUsernames cfg)
}.

(** ** Mention records and observable events *)

(** [MentionData] (declared in ../types), with the fields the two services
    fill in; a field a service leaves out reads as [JUndefined]. *)
Record MentionData : Type := {
  platform : string;
  postId : JValue;
  postUrl : JValue;
  postContent : JValue;
  commentId : JValue;
  commentText : JValue;
  taggerId : JValue;
  taggerName : JValue;
  taggerUsername : JValue;
  taggerProfilePicUrl : JValue;
  mentionedUsername : string;
  timestamp : JValue
}.

(** What a handler does to the outside world:
    - [HttpGet url params]: [axios.get(url, { params })];
    - [Respond status body]: [res.status(status).send(body)];
    - [RespondStatus status]: [res.sendStatus(status)];
    - [Notify mention]: [sendAllNotifications(mention)];
    - [SendMail mentionInfo]: [transporter.sendMail] of the mail rendered
      from [mentionInfo]. *)
Inductive Event : Type :=
| HttpGet (url : string) (params : list (string * JValue))
| Respond (status : Z) (body : JValue)
| RespondStatus (status : Z)
| Notify (mention : MentionData)
| SendMail (mentionInfo : JValue).

Definition is_network (e : Event) : bool :=
  match e with HttpGet _ _ => true | _ => false end.

Definition is_mail (e : Event) : bool :=
  match e with Notify _ | SendMail _ => true | _ => false end.

Definition is_response (e : Event) : bool :=
  match e with Respond _ _ | RespondStatus _ => true | _ => false end.

(** ** Computations: exceptions and an event log *)

(** A computation sees the events that happened before it and yields its
    outcome with the events it emitted itself, oldest first. *)
Definition M (A : Type) : Type := list Event → Result A * list Event.

Definition outcome {A} (r : Result A * list Event) : Result A := fst r.
Definition events {A} (r : Result A * list Event) : list Event := snd r.

#[global] Instance Result_ret : MRet Result := λ A a, Ok a.
#[global] Instance Result_bind : MBind Result := λ A B f r,
  match r with
  | Ok a => f a
  | Throw e => Throw e
  end.

#[global] Instance M_ret : MRet M := λ A a _, (Ok a, []).
#[global] Instance M_bind : MBind M := λ A B f m past,
  match m past with
  | (Ok a, ev) => let '(r, ev') := f a (past ++ ev) in (r, ev ++ ev')
  | (Throw e, ev) => (Throw e, ev)
  end.

(** An expression evaluated inside a computation. *)
Definition lift {A} (r : Result A) : M A := λ _, (r, []).

Definition emit (e : Event) : M unit := λ _, (Ok tt, [e]).

(** [try { body } catch (error) { handler }] *)
Definition try_catch {A} (body : M A) (handler : JsError → M A) : M A := λ past,
  match body past with
  | (Ok a, ev) => (Ok a, ev)
  | (Throw e, ev) => let '(r, ev') := handler e (past ++ ev) in (r, ev ++ ev')
  end.

(** [for (const x of xs) { body }] *)
Fixpoint for_each {A} (xs : list A) (body : A → M unit) : M unit :=
  match xs with
  | [] => mret tt
  | x :: rest => body x;; for_each rest body
  end.

(** ** The TypeScript services and controller *)

Section Service.

(** [config.meta] *)
Variable cfg : Config.

(** The Graph API as seen through [axios.get]: given the events so far,
    the URL and the query parameters, the [data] of the response, or the
    error the call rejects with. *)
Variable axios_get : list Event → string → list (string * JValue) → Result JValue.

(** How a call of [sendAllNotifications] settles: normally, or by throwing. *)
Variable notifier : list Event → MentionData → Result unit.

Definition http_get (url : string) (params : list (string * JValue)) : M JValue :=
  λ past, (axios_get past url params, [HttpGet url params]).

(** Modelled from the spec: [sendAllNotifications] of notificationService,
    which formats the record and delivers it by mail.  The delivery is one
    event; whether the call then throws is left to [notifier]. *)
Definition sendAllNotifications (mention : MentionData) : M unit :=
  λ past, (notifier past mention, [Notify mention]).

Definition FB_GRAPH_URL : string := "https://graph.facebook.com/v18.0".
Definition IG_GRAPH_URL : string := "https://graph.facebook.com/v18.0".

(** *** facebookService *)

Definition getPageAccessToken (pageId : option string) : string :=
  let found :=
    match pageId with
    | Some pid =>
        if Str.nonempty pid
        then List.find (λ p, String.eqb (Page.id p) pid) (pages cfg)
        else None
    | None => None
    end in
  match found with
  | Some page => Page.pageAccessToken page
  | None =>
      match pages cfg with
      | first :: _ => Page.pageAccessToken first
      | [] => ""
      end
  end.

Definition getFacebookPostDetails (postId : JValue) (accessToken : string) : M JValue :=
  try_catch
    (if negb (Str.nonempty accessToken) then mret JNull
     else
       id ← lift (Js.toString postId);
       http_get (FB_GRAPH_URL +:+ "/" +:+ id)
                [("access_token", JStr accessToken);
                 ("fields", JStr "message,permalink_url")])
    (λ _, mret JNull).

(** The loop over [config.meta.businessIgUsernames], shared by both
    services: the first username whose [@username] the text includes,
    [''] when the loop ends without a hit. *)
Fixpoint mentionedUsername_loop (commentText : JValue) (usernames : list string)
  : Result string :=
  match usernames with
  | [] => Ok ""
  | username :: rest =>
      hit ← Js.includes commentText ("@" +:+ username);
      if hit : bool then Ok username
      else mentionedUsername_loop commentText rest
  end.

(** The test of the loop over [config.meta.pages]. *)
Definition page_mentioned (commentText : JValue) (page : Page.t) : Result bool :=
  byName ← Js.includes commentText ("@" +:+ Page.name page);
  if byName : bool then Ok true
  else Js.includes commentText ("@[" +:+ Page.id page +:+ "]").

(** The loop over [config.meta.pages], entered with [mentionedUsername]
    still empty: the pair [(mentionedPageId, mentionedUsername)] it leaves. *)
Fixpoint mentionedPage_loop (commentText : JValue) (ps : list Page.t)
  : Result (string * string) :=
  match ps with
  | [] => Ok ("", "")
  | page :: rest =>
      hit ← page_mentioned commentText page;
      if hit : bool then
        Ok (Page.id page,
            match Page.instagramUsername page with
            | Some u => if Str.nonempty u then u else ""
            | None => ""
            end)
      else mentionedPage_loop commentText rest
  end.

(** The [try] block of [processFacebookWebhook].  Of the calls to the
    logger only the conversion of [comment_id] to a string is kept, which
    can throw. *)
Definition processFacebookWebhook_body (entry : JValue) : M (option MentionData) :=
  changes ← lift (Js.get entry "changes");
  if negb (Js.truthy changes) then mret None else
  len ← lift (Js.get changes "length");
  if Js.is_num len 0 then mret None else
  change ← lift (Js.get_index changes 0);
  field ← lift (Js.get change "field");
  if negb (Js.is_str field "feed") then mret None else
  commentData ← lift (Js.get change "value");
  if negb (Js.truthy commentData) then mret None else
  item ← lift (Js.get commentData "item");
  if negb (Js.is_str item "comment") then mret None else
  message ← lift (Js.get commentData "message");
  let commentText := Js.or message (JStr "") in
  byUsername ← lift (mentionedUsername_loop commentText (businessIgUsernames cfg));
  '(mentionedPageId, mentionedUsername) ← lift (
     if Str.nonempty byUsername then Ok ("", byUsername)
     else mentionedPage_loop commentText (pages cfg));
  if negb (Str.nonempty mentionedUsername) && negb (Str.nonempty mentionedPageId)
  then mret None else
  comment_id ← lift (Js.get commentData "comment_id");
  logged ← lift (Js.toString comment_id);
  from ← lift (Js.get commentData "from");
  let taggerName := Js.or (Js.get_opt from "name") (JStr "") in
  post_id ← lift (Js.get commentData "post_id");
  '(postContent, postUrl) ← (
     if Js.truthy post_id then
       let pageAccessToken := getPageAccessToken (Some mentionedPageId) in
       if Str.nonempty pageAccessToken then
         postDetails ← getFacebookPostDetails post_id pageAccessToken;
         if Js.truthy postDetails then
           content ← lift (Js.get postDetails "message");
           permalink ← lift (Js.get postDetails "permalink_url");
           if Js.truthy permalink then mret (content, permalink)
           else
             id ← lift (Js.toString post_id);
             mret (content, JStr ("https://www.facebook.com/" +:+ id))
         else mret (JUndefined, JUndefined)
       else mret (JUndefined, JUndefined)
     else mret (JUndefined, JUndefined));
  time ← lift (Js.get entry "time");
  mret (Some {| platform := "facebook";
                postId := Js.or post_id (JStr "");
                postUrl := postUrl;
                postContent := postContent;
                commentId := Js.or comment_id (JStr "");
                commentText := commentText;
                taggerId := Js.or (Js.get_opt from "id") (JStr "");
                taggerName := taggerName;
                taggerUsername := JUndefined;
                taggerProfilePicUrl := JUndefined;
                mentionedUsername := mentionedUsername;
                timestamp := time |}).

Definition processFacebookWebhook (entry : JValue) : M (option MentionData) :=
  try_catch (processFacebookWebhook_body entry) (λ _, mret None).

(** *** instagramService *)

Definition getInstagramMediaDetails (mediaId : JValue) (accessToken : string) : M JValue :=
  try_catch
    (if negb (Str.nonempty accessToken) then mret JNull
     else
       id ← lift (Js.toString mediaId);
       http_get (IG_GRAPH_URL +:+ "/" +:+ id)
                [("access_token", JStr accessToken);
                 ("fields", JStr "permalink,caption")])
    (λ _, mret JNull).

Definition getInstagramUserDetails (userId : JValue) (accessToken : string) : M JValue :=
  try_catch
    (if negb (Str.nonempty accessToken) then mret JNull
     else
       id ← lift (Js.toString userId);
       http_get (IG_GRAPH_URL +:+ "/" +:+ id)
                [("access_token", JStr accessToken);
                 ("fields", JStr "username,profile_picture_url")])
    (λ _, mret JNull).

(** [associatedPage?.pageAccessToken ||
     (config.meta.pages.length > 0 ? config.meta.pages[0].pageAccessToken : '')] *)
Definition associatedPageToken (associatedPage : option Page.t) : string :=
  let own := from_option Page.pageAccessToken "" associatedPage in
  if Str.nonempty own then own
  else match pages cfg with
       | first :: _ => Page.pageAccessToken first
       | [] => ""
       end.

(** The [try] block of [processInstagramWebhook].  Of the calls to the
    logger only the conversion of the comment's [id] to a string is kept,
    which can throw. *)
Definition processInstagramWebhook_body (entry : JValue) : M (option MentionData) :=
  changes ← lift (Js.get entry "changes");
  if negb (Js.truthy changes) then mret None else
  len ← lift (Js.get changes "length");
  if Js.is_num len 0 then mret None else
  change ← lift (Js.get_index changes 0);
  field ← lift (Js.get change "field");
  if negb (Js.is_str field "comments") then mret None else
  commentData ← lift (Js.get change "value");
  if negb (Js.truthy commentData) then mret None else
  text ← lift (Js.get commentData "text");
  let commentText := Js.or text (JStr "") in
  mentionedUsername ← lift (mentionedUsername_loop commentText (businessIgUsernames cfg));
  if negb (Str.nonempty mentionedUsername) then mret None else
  id ← lift (Js.get commentData "id");
  logged ← lift (Js.toString id);
  let associatedPage :=
    List.find (λ page, bool_decide (Page.instagramUsername page = Some mentionedUsername))
              (pages cfg) in
  media ← lift (Js.get commentData "media");
  let mediaId := Js.get_opt media "id" in
  '(postContent, postUrl) ← (
     if Js.truthy mediaId then
       let pageAccessToken := associatedPageToken associatedPage in
       if Str.nonempty pageAccessToken then
         mediaDetails ← getInstagramMediaDetails mediaId pageAccessToken;
         if Js.truthy mediaDetails then
           caption ← lift (Js.get mediaDetails "caption");
           permalink ← lift (Js.get mediaDetails "permalink");
           mret (caption, permalink)
         else mret (JUndefined, JUndefined)
       else mret (JUndefined, JUndefined)
     else mret (JUndefined, JUndefined));
  from ← lift (Js.get commentData "from");
  let fromUsername := Js.or (Js.get_opt from "username") (JStr "") in
  let fromId := Js.get_opt from "id" in
  '(taggerUsername, taggerProfilePicUrl) ← (
     if Js.truthy fromId then
       let pageAccessToken := associatedPageToken associatedPage in
       if Str.nonempty pageAccessToken then
         taggerDetails ← getInstagramUserDetails fromId pageAccessToken;
         if Js.truthy taggerDetails then
           username ← lift (Js.get taggerDetails "username");
           picture ← lift (Js.get taggerDetails "profile_picture_url");
           mret (if Js.truthy username then username else fromUsername, picture)
         else mret (fromUsername, JUndefined)
       else mret (fromUsername, JUndefined)
     else mret (fromUsername, JUndefined));
  time ← lift (Js.get entry "time");
  mret (Some {| platform := "instagram";
                postId := Js.or mediaId (JStr "");
                postUrl := postUrl;
                postContent := postContent;
                commentId := Js.or id (JStr "");
                commentText := commentText;
                taggerId := Js.or fromId (JStr "");
                taggerName := JUndefined;
                taggerUsername := taggerUsername;
                taggerProfilePicUrl := taggerProfilePicUrl;
                mentionedUsername := mentionedUsername;
                timestamp := time |}).

Definition processInstagramWebhook (entry : JValue) : M (option MentionData) :=
  try_catch (processInstagramWebhook_body entry) (λ _, mret None).

(** *** webhookController *)

(** An Express request: the parsed query string and the parsed body.  The
    query parser drops the keys that shadow [Object.prototype], so the values
    of a query always convert to a string and the log lines of the
    verification handlers are left out. *)
Record Request : Type := {
  query : list (string * JValue);
  body : JValue
}.

Definition verifyWebhook (req : Request) : M unit :=
  try_catch
    (let mode := Js.of_option (Js.assoc "hub.mode" (query req)) in
     let token := Js.of_option (Js.assoc "hub.verify_token" (query req)) in
     let challenge := Js.of_option (Js.assoc "hub.challenge" (query req)) in
     if Js.truthy mode && Js.truthy token then
       if Js.is_str mode "subscribe" && Js.is_str token (verifyToken cfg)
       then emit (Respond 200 challenge)
       else emit (RespondStatus 403)
     else emit (RespondStatus 400))
    (λ _, emit (RespondStatus 500)).

Definition processWebhook (req : Request) : M unit :=
  try_catch
    (let payload := body req in
     emit (Respond 200 (JStr "EVENT_RECEIVED"));;
     object ← lift (Js.get payload "object");
     if Js.is_str object "page" || Js.is_str object "instagram" then
       entry ← lift (Js.get payload "entry");
       entries ← lift (Js.iterate entry);
       for_each entries (λ entry,
         mentionData ← (
           if Js.is_str object "page" then processFacebookWebhook entry
           else if Js.is_str object "instagram" then processInstagramWebhook entry
           else mret None);
         match mentionData with
         | Some mention => sendAllNotifications mention
         | None => mret tt
         end)
     else mret tt)
    (λ _, mret tt).

End Service.

(** ** The stand-alone server (webhook-server.js) *)

Module Legacy.

(** An entry of the [facebookPages] registry. *)
Record PageInfo : Type := { name : JValue; token : JValue }.

(** An entry of the [instagramAccounts] registry. *)
Record Account : Type := { acc_pageId : JValue; acc_token : JValue; acc_name : JValue }.

(** Names every plain object inherits from [Object.prototype]; reading one
    of them from a registry yields a value that is truthy and has no
    [token]. *)
Definition inherited_keys : list string :=
  ["constructor"; "toString"; "toLocaleString"; "valueOf"; "hasOwnProperty";
   "isPrototypeOf"; "propertyIsEnumerable"; "__proto__"; "__defineGetter__";
   "__defineSetter__"; "__lookupGetter__"; "__lookupSetter__"].

Definition message_of (e : JsError) : string :=
  match e with
  | TypeError what => what
  | NetworkError => "Network Error"
  | ErrorMsg what => what
  end.

Section Server.

(** [process.env.META_VERIFY_TOKEN] *)
Variable META_VERIFY_TOKEN : option string.

(** The registries filled by [initializePageConfigurations] at startup,
    listed in the order [Object.keys] enumerates them. *)
Variable facebookPages : list (string * PageInfo).
Variable instagramAccounts : list (string * Account).

Variable axios_get : list Event → string → list (string * JValue) → Result JValue.

(** [new Date().toISOString()] *)
Variable now : string.

Definition http_get (url : string) (params : list (string * JValue)) : M JValue :=
  λ past, (axios_get past url params, [HttpGet url params]).

(** [app.get('/webhook', ...)] *)
Definition get_webhook (query : list (string * JValue)) : M unit :=
  let mode := Js.of_option (Js.assoc "hub.mode" query) in
  let token := Js.of_option (Js.assoc "hub.verify_token" query) in
  let challenge := Js.of_option (Js.assoc "hub.challenge" query) in
  if Js.truthy mode && Js.truthy token then
    if Js.is_str mode "subscribe" &&
       match META_VERIFY_TOKEN with
       | Some expected => Js.is_str token expected
       | None => false
       end
    then emit (Respond 200 challenge)
    else emit (RespondStatus 403)
  else emit (RespondStatus 404).

Definition fetch_failed (error : JsError) : JValue :=
  JObj [("error", JStr "Could not fetch post details");
        ("errorMessage", JStr (message_of error))].

(** [response.data.attachments?.data[0]?.k] *)
Definition first_attachment (data : JValue) (k : string) : Result JValue :=
  attachments ← Js.get data "attachments";
  if Js.nullish attachments then Ok JUndefined else
  items ← Js.get attachments "data";
  first ← Js.get_index items 0;
  Ok (Js.get_opt first k).

Definition getFacebookPostDetails (postId accessToken : JValue) : M JValue :=
  try_catch
    (id ← lift (Js.toString postId);
     data ← http_get ("https://graph.facebook.com/v19.0/" +:+ id)
              [("fields",
                JStr "id,message,permalink_url,created_time,from{id,name,picture},attachments");
               ("access_token", accessToken)];
     message ← lift (Js.get data "message");
     permalink_url ← lift (Js.get data "permalink_url");
     created_time ← lift (Js.get data "created_time");
     from ← lift (Js.get data "from");
     let picture := Js.get_opt (Js.get_opt (Js.get_opt from "picture") "data") "url" in
     mediaType ← lift (first_attachment data "type");
     mediaUrl ← lift (first_attachment data "url");
     mret (JObj [("postMessage", Js.or message (JStr ""));
                 ("postUrl", permalink_url);
                 ("postCreatedTime", created_time);
                 ("fromUser", Js.or (Js.get_opt from "name") (JStr "Unknown"));
                 ("fromUserPicture", Js.or picture (JStr ""));
                 ("mediaType", Js.or mediaType (JStr "none"));
                 ("mediaUrl", Js.or mediaUrl (JStr ""))]))
    (λ error, mret (fetch_failed error)).

Definition getInstagramPostDetails (mediaId accessToken : JValue) : M JValue :=
  try_catch
    (id ← lift (Js.toString mediaId);
     data ← http_get ("https://graph.facebook.com/v19.0/" +:+ id)
              [("fields",
                JStr "id,caption,permalink,timestamp,username,media_type,media_url");
               ("access_token", accessToken)];
     caption ← lift (Js.get data "caption");
     permalink ← lift (Js.get data "permalink");
     timestamp ← lift (Js.get data "timestamp");
     username ← lift (Js.get data "username");
     media_type ← lift (Js.get data "media_type");
     mediaType ← lift (Js.toLowerCase media_type);
     media_url ← lift (Js.get data "media_url");
     mret (JObj [("postMessage", Js.or caption (JStr ""));
                 ("postUrl", permalink);
                 ("postCreatedTime", timestamp);
                 ("fromUser", Js.or username (JStr "Unknown"));
                 ("mediaType", JStr mediaType);
                 ("mediaUrl", Js.or media_url (JStr ""))]))
    (λ error, mret (fetch_failed error)).

(** The mail is rendered before it is sent: the subject and the HTML call
    string methods on [platform] and [mentionType] and convert the other
    fields to strings.  A failure there, like a rejected [sendMail], is
    caught and logged. *)
Definition sendMentionEmail (mentionInfo : JValue) : M unit :=
  try_catch
    (platform ← lift (Js.get mentionInfo "platform");
     lift (Js.string_receiver platform);;
     mentionType ← lift (Js.get mentionInfo "mentionType");
     let mentionType := Js.or mentionType (JStr "post") in
     mentionedUsername ← lift (Js.get mentionInfo "mentionedUsername");
     lift (Js.toString (Js.or mentionedUsername (JStr "your account")));;
     postCreatedTime ← lift (Js.get mentionInfo "postCreatedTime");
     timestamp ← lift (Js.get mentionInfo "timestamp");
     lift (Js.toString (Js.or postCreatedTime timestamp));;
     fromUser ← lift (Js.get mentionInfo "fromUser");
     lift (Js.toString fromUser);;
     lift (Js.string_receiver mentionType);;
     postMessage ← lift (Js.get mentionInfo "postMessage");
     lift (Js.toString postMessage);;
     mediaType ← lift (Js.get mentionInfo "mediaType");
     (if Js.is_str mediaType "none" then mret EmptyString
      else lift (Js.toString mediaType));;
     postUrl ← lift (Js.get mentionInfo "postUrl");
     lift (Js.toString postUrl);;
     emit (SendMail mentionInfo))
    (λ _, mret tt).

(** [instagramAccounts[key]] *)
Definition account_lookup (key : string) : JValue + Account :=
  match Js.assoc key instagramAccounts with
  | Some account => inr account
  | None =>
      if bool_decide (key ∈ inherited_keys) then inl (JObj []) else inl JUndefined
  end.

Definition handleMention (data : JValue) (platform : string) : M unit :=
  try_catch
    (let mentionInfo := [("platform", JStr platform); ("timestamp", JStr now)] in
     if String.eqb platform "facebook" then
       pageId ← lift (Js.get data "page_id");
       postId ← lift (Js.get data "post_id");
       userId ← lift (Js.get data "sender_id");
       let mentionInfo :=
         Js.spread mentionInfo
           [("pageId", pageId); ("postId", postId); ("userId", userId)] in
       key ← lift (Js.toString pageId);
       let pageToken :=
         match Js.assoc key facebookPages with
         | Some info => token info
         | None => JUndefined
         end in
       if negb (Js.truthy pageToken)
       then lift (Throw (ErrorMsg "No token found for Facebook page"))
       else
         postDetails ← getFacebookPostDetails postId pageToken;
         sendMentionEmail (JObj (Js.spread mentionInfo (Js.own_fields postDetails)))
     else if String.eqb platform "instagram" then
       mediaId ← lift (Js.get data "media_id");
       mentionedUsername ← lift (Js.get data "mentioned_username");
       let mentionInfo :=
         Js.spread mentionInfo
           [("mediaId", mediaId); ("mentionedUsername", mentionedUsername)] in
       key ← lift (Js.toLowerCase mentionedUsername);
       accountToken ← lift (
         match account_lookup key with
         | inr account => Ok (acc_token account)
         | inl other =>
             if Js.truthy other then Ok JUndefined
             else Throw (ErrorMsg "No configuration found for Instagram account")
         end);
       postDetails ← getInstagramPostDetails mediaId accountToken;
       sendMentionEmail (JObj (Js.spread mentionInfo (Js.own_fields postDetails)))
     else sendMentionEmail (JObj mentionInfo))
    (λ _, mret tt).

(** The predicate handed to [some] and [find] in [handleComment]. *)
Definition mentions (message : JValue) (username : string) : Result bool :=
  text ← Js.toLowerCase message;
  Ok (Str.includes ("@" +:+ Str.toLowerCase username) text).

(** [monitoredAccounts.find(username => ...)]; [some] holds when [find]
    returns an element. *)
Fixpoint find_mentioned (message : JValue) (monitoredAccounts : list string)
  : Result (option string) :=
  match monitoredAccounts with
  | [] => Ok None
  | username :: rest =>
      hit ← mentions message username;
      if hit : bool then Ok (Some username) else find_mentioned message rest
  end.

Definition handleComment (data : JValue) : M unit :=
  try_catch
    (from ← lift (Js.get data "from");
     id ← lift (Js.get data "id");
     post_id ← lift (Js.get data "post_id");
     media_id ← lift (Js.get data "media_id");
     created_time ← lift (Js.get data "created_time");
     message ← lift (Js.get data "message");
     text ← lift (Js.get data "text");
     let platform :=
       if Js.truthy (Js.get_opt from "instagram_id") then "instagram" else "facebook" in
     let message := Js.or message text in
     let commentInfo :=
       [("platform", JStr platform);
        ("commentId", id);
        ("postId", Js.or post_id media_id);
        ("timestamp", Js.or created_time (JStr now));
        ("message", message)] in
     let monitoredAccounts := map fst instagramAccounts in
     containsMention ← lift (find_mentioned message monitoredAccounts);
     if negb (bool_decide (is_Some containsMention)) then mret tt else
     mentionedAccount ← lift (find_mentioned message monitoredAccounts);
     match mentionedAccount with
     | Some mentionedAccount =>
         if negb (Str.nonempty mentionedAccount) then mret tt else
         accountToken ← lift (
           match account_lookup (Str.toLowerCase mentionedAccount) with
           | inr account => Ok (acc_token account)
           | inl other =>
               if Js.nullish other then Throw (TypeError "token") else Ok JUndefined
           end);
         postDetails ← (
           if String.eqb platform "instagram"
           then getInstagramPostDetails (Js.or post_id media_id) accountToken
           else getFacebookPostDetails (Js.or post_id media_id) accountToken);
         sendMentionEmail
           (JObj (Js.spread
                    (Js.spread commentInfo (Js.own_fields postDetails))
                    [("mentionType", JStr "comment");
                     ("mentionedUsername", JStr mentionedAccount)]))
     | None => mret tt
     end)
    (λ _, mret tt).

(** The body of the loop over [entry.changes]. *)
Definition dispatch_change (change : JValue) : M unit :=
  field ← lift (Js.get change "field");
  if Js.is_str field "mention" then
    value ← lift (Js.get change "value"); handleMention value "facebook"
  else if Js.is_str field "mentions" then
    value ← lift (Js.get change "value"); handleMention value "instagram"
  else if Js.is_str field "comments" then
    value ← lift (Js.get change "value"); handleComment value
  else mret tt.

(** [app.post('/webhook', ...)]; a thrown outcome is a rejected handler,
    which sends no response. *)
Definition post_webhook (body : JValue) : M unit :=
  object ← lift (Js.get body "object");
  if Js.is_str object "page" || Js.is_str object "instagram" then
    entry ← lift (Js.get body "entry");
    entries ← lift (Js.iterate entry);
    for_each entries (λ entry,
      try_catch
        (changes ← lift (Js.get entry "changes");
         if Js.truthy changes then
           changes ← lift (Js.iterate changes);
           for_each changes dispatch_change
         else mret tt)
        (λ _, mret tt));;
    emit (Respond 200 (JStr "EVENT_RECEIVED"))
  else emit (RespondStatus 404).

End Server.

End Legacy.

(** ** The stand-alone server, revised

    The second copy of the stand-alone server found in the repository: the
    same handlers with more logging and more guards.  The registries, the
    verification endpoint and the lookup predicate are those of [Legacy]. *)

Module LegacyRevised.

Section Server.

Variable META_VERIFY_TOKEN : option string.
Variable facebookPages : list (string * Legacy.PageInfo).
Variable instagramAccounts : list (string * Legacy.Account).
Variable axios_get : list Event → string → list (string * JValue) → Result JValue.
Variable now : string.

(** [app.get('/webhook', ...)] *)
Definition get_webhook (query : list (string * JValue)) : M unit :=
  let mode := Js.of_option (Js.assoc "hub.mode" query) in
  let token := Js.of_option (Js.assoc "hub.verify_token" query) in
  let challenge := Js.of_option (Js.assoc "hub.challenge" query) in
  if Js.truthy mode && Js.truthy token then
    if Js.is_str mode "subscribe" &&
       match META_VERIFY_TOKEN with
       | Some expected => Js.is_str token expected
       | None => false
       end
    then emit (Respond 200 challenge)
    else emit (RespondStatus 403)
  else emit (RespondStatus 404).

Definition fetch_failed (error : JsError) : JValue :=
  JObj [("error", JStr "Could not fetch post details");
        ("errorMessage", JStr (Legacy.message_of error));
        ("postMessage", JStr "Unable to retrieve post content")].

Definition getFacebookPostDetails (postId accessToken : JValue) : M JValue :=
  try_catch
    (id ← lift (Js.toString postId);
     data ← Legacy.http_get axios_get ("https://graph.facebook.com/v19.0/" +:+ id)
              [("fields",
                JStr "id,message,permalink_url,created_time,from{id,name,picture},attachments");
               ("access_token", accessToken)];
     message ← lift (Js.get data "message");
     permalink_url ← lift (Js.get data "permalink_url");
     created_time ← lift (Js.get data "created_time");
     from ← lift (Js.get data "from");
     let picture := Js.get_opt (Js.get_opt (Js.get_opt from "picture") "data") "url" in
     mediaType ← lift (Legacy.first_attachment data "type");
     mediaUrl ← lift (Legacy.first_attachment data "url");
     mret (JObj [("postMessage", Js.or message (JStr ""));
                 ("postUrl", permalink_url);
                 ("postCreatedTime", created_time);
                 ("fromUser", Js.or (Js.get_opt from "name") (JStr "Unknown"));
                 ("fromUserPicture", Js.or picture (JStr ""));
                 ("mediaType", Js.or mediaType (JStr "none"));
                 ("mediaUrl", Js.or mediaUrl (JStr ""))]))
    (λ error, mret (fetch_failed error)).

Definition getInstagramPostDetails (mediaId accessToken : JValue) : M JValue :=
  try_catch
    (id ← lift (Js.toString mediaId);
     data ← Legacy.http_get axios_get ("https://graph.facebook.com/v19.0/" +:+ id)
              [("fields",
                JStr "id,caption,permalink,timestamp,username,media_type,media_url");
               ("access_token", accessToken)];
     caption ← lift (Js.get data "caption");
     permalink ← lift (Js.get data "permalink");
     timestamp ← lift (Js.get data "timestamp");
     username ← lift (Js.get data "username");
     media_type ← lift (Js.get data "media_type");
     mediaType ← lift (
       if Js.nullish media_type then Ok JUndefined
       else lower ← Js.toLowerCase media_type; Ok (JStr lower));
     media_url ← lift (Js.get data "media_url");
     mret (JObj [("postMessage", Js.or caption (JStr ""));
                 ("postUrl", permalink);
                 ("postCreatedTime", timestamp);
                 ("fromUser", Js.or username (JStr "Unknown"));
                 ("mediaType", Js.or mediaType (JStr "unknown"));
                 ("mediaUrl", Js.or media_url (JStr ""))]))
    (λ error, mret (fetch_failed error)).

Definition sendMentionEmail (mentionInfo : JValue) : M unit :=
  Legacy.sendMentionEmail mentionInfo.

Definition handleMention (data : JValue) (platform : string) : M unit :=
  try_catch
    (let mentionInfo := [("platform", JStr platform); ("timestamp", JStr now)] in
     if String.eqb platform "facebook" then
       pageId ← lift (Js.get data "page_id");
       postId ← lift (Js.get data "post_id");
       userId ← lift (Js.get data "sender_id");
       let mentionInfo :=
         Js.spread mentionInfo
           [("pageId", pageId); ("postId", postId); ("userId", userId)] in
       key ← lift (Js.toString pageId);
       let pageToken :=
         match Js.assoc key facebookPages with
         | Some info => Legacy.token info
         | None => JUndefined
         end in
       if negb (Js.truthy pageToken)
       then lift (Throw (ErrorMsg "No token found for Facebook page"))
       else
         postDetails ← getFacebookPostDetails postId pageToken;
         sendMentionEmail (JObj (Js.spread mentionInfo (Js.own_fields postDetails)))
     else if String.eqb platform "instagram" then
       mediaId ← lift (Js.get data "media_id");
       mentionedUsername ← lift (Js.get data "mentioned_username");
       let fallback :=
         if Js.truthy mentionedUsername then Some mentionedUsername
         else match instagramAccounts with
              | [(only, _)] => Some (JStr only)
              | _ => None
              end in
       match fallback with
       | None => mret tt
       | Some mentionedUsername =>
           let mentionInfo :=
             Js.spread mentionInfo
               [("mediaId", mediaId); ("mentionedUsername", mentionedUsername)] in
           key ← lift (Js.toLowerCase mentionedUsername);
           match Legacy.account_lookup instagramAccounts key with
           | inr account =>
               postDetails ← getInstagramPostDetails mediaId (Legacy.acc_token account);
               sendMentionEmail (JObj (Js.spread mentionInfo (Js.own_fields postDetails)))
           | inl other =>
               if Js.truthy other then
                 postDetails ← getInstagramPostDetails mediaId JUndefined;
                 sendMentionEmail
                   (JObj (Js.spread mentionInfo (Js.own_fields postDetails)))
               else mret tt
           end
       end
     else mret tt)
    (λ _, mret tt).

Definition handleComment (data : JValue) : M unit :=
  try_catch
    (if negb (Js.truthy data) then mret tt else
     from ← lift (Js.get data "from");
     id ← lift (Js.get data "id");
     post_id ← lift (Js.get data "post_id");
     media_id ← lift (Js.get data "media_id");
     created_time ← lift (Js.get data "created_time");
     message ← lift (Js.get data "message");
     text ← lift (Js.get data "text");
     let platform :=
       if Js.truthy (Js.get_opt from "instagram_id") then "instagram" else "facebook" in
     let message := Js.or (Js.or message text) (JStr "") in
     let commentInfo :=
       [("platform", JStr platform);
        ("commentId", id);
        ("postId", Js.or post_id media_id);
        ("timestamp", Js.or created_time (JStr now));
        ("message", message)] in
     if negb (Js.truthy message) then mret tt else
     let monitoredAccounts := map fst instagramAccounts in
     if (length monitoredAccounts =? 0)%nat then mret tt else
     containsMention ← lift (Legacy.find_mentioned message monitoredAccounts);
     if negb (bool_decide (is_Some containsMention)) then mret tt else
     mentionedAccount ← lift (Legacy.find_mentioned message monitoredAccounts);
     match mentionedAccount with
     | Some mentionedAccount =>
         if negb (Str.nonempty mentionedAccount) then mret tt else
         let send accountToken :=
           try_catch
             (postDetails ← (
                if String.eqb platform "instagram"
                then getInstagramPostDetails (Js.or post_id media_id) accountToken
                else getFacebookPostDetails (Js.or post_id media_id) accountToken);
              sendMentionEmail
                (JObj (Js.spread
                         (Js.spread commentInfo (Js.own_fields postDetails))
                         [("mentionType", JStr "comment");
                          ("mentionedUsername", JStr mentionedAccount)])))
             (λ _, mret tt) in
         match Legacy.account_lookup instagramAccounts
                 (Str.toLowerCase mentionedAccount) with
         | inr account => send (Legacy.acc_token account)
         | inl other => if Js.truthy other then send JUndefined else mret tt
         end
     | None => mret tt
     end)
    (λ _, mret tt).

(** The body of the loop over [entry.changes]; the field is logged first. *)
Definition dispatch_change (change : JValue) : M unit :=
  field ← lift (Js.get change "field");
  lift (Js.toString field);;
  if Js.is_str field "mention" then
    value ← lift (Js.get change "value"); handleMention value "facebook"
  else if Js.is_str field "mentions" then
    value ← lift (Js.get change "value"); handleMention value "instagram"
  else if Js.is_str field "comments" then
    value ← lift (Js.get change "value"); handleComment value
  else mret tt.

(** [app.post('/webhook', ...)] *)
Definition post_webhook (body : JValue) : M unit :=
  try_catch
    (object ← lift (Js.get body "object");
     if Js.is_str object "page" || Js.is_str object "instagram" then
       entry ← lift (Js.get body "entry");
       entries ← lift (Js.iterate (Js.or entry (JArr [])));
       for_each entries (λ entry,
         try_catch
           (changes ← lift (Js.get entry "changes");
            if Js.truthy changes then
              changes ← lift (Js.iterate changes);
              for_each changes dispatch_change
            else mret tt)
           (λ _, mret tt));;
       emit (Respond 200 (JStr "EVENT_RECEIVED"))
     else emit (RespondStatus 404))
    (λ _, emit (Respond 500 (JStr "Error processing webhook"))).

End Server.

End LegacyRevised.

(** ** The extractors, phase by phase

    [processFacebookWebhook] and [processInstagramWebhook] run in three
    phases: pick the first change of the entry, decide from it alone whether
    a configured account is mentioned, and only then fetch details and build
    the record.  The phases below are the corresponding slices of the two
    [try] blocks; [fb_body_split] and [ig_body_split] show that running them
    in sequence is running the block. *)

(** What the detection phase hands to the rest of the extractor. *)
Record Detected : Type := {
  det_commentData : JValue;
  det_commentText : JValue;
  det_pageId : string;
  det_username : string
}.

(** The guard on [entry.changes] and the choice of [entry.changes[0]]. *)
Definition first_change (entry : JValue) : Result (option JValue) :=
  changes ← Js.get entry "changes";
  if negb (Js.truthy changes) then Ok None else
  len ← Js.get changes "length";
  if Js.is_num len 0 then Ok None else
  change ← Js.get_index changes 0;
  Ok (Some change).

Section Phases.

Variable cfg : Config.
Variable axios_get : list Event → string → list (string * JValue) → Result JValue.

Definition fb_detect (change : JValue) : Result (option Detected) :=
  field ← Js.get change "field";
  if negb (Js.is_str field "feed") then Ok None else
  commentData ← Js.get change "value";
  if negb (Js.truthy commentData) then Ok None else
  item ← Js.get commentData "item";
  if negb (Js.is_str item "comment") then Ok None else
  message ← Js.get commentData "message";
  let commentText := Js.or message (JStr "") in
  byUsername ← mentionedUsername_loop commentText (businessIgUsernames cfg);
  '(mentionedPageId, mentionedUsername) ← (
     if Str.nonempty byUsername then Ok ("", byUsername)
     else mentionedPage_loop commentText (pages cfg));
  if negb (Str.nonempty mentionedUsername) && negb (Str.nonempty mentionedPageId)
  then Ok None
  else Ok (Some {| det_commentData := commentData;
                   det_commentText := commentText;
                   det_pageId := mentionedPageId;
                   det_username := mentionedUsername |}).

(** The post content and URL looked up for a detected Facebook mention. *)
Definition fb_fetch (post_id : JValue) (d : Detected) : M (JValue * JValue) :=
  if Js.truthy post_id then
    let pageAccessToken := getPageAccessToken cfg (Some (det_pageId d)) in
    if Str.nonempty pageAccessToken then
      postDetails ← getFacebookPostDetails axios_get post_id pageAccessToken;
      if Js.truthy postDetails then
        content ← lift (Js.get postDetails "message");
        permalink ← lift (Js.get postDetails "permalink_url");
        if Js.truthy permalink then mret (content, permalink)
        else
          id ← lift (Js.toString post_id);
          mret (content, JStr ("https://www.facebook.com/" +:+ id))
      else mret (JUndefined, JUndefined)
    else mret (JUndefined, JUndefined)
  else mret (JUndefined, JUndefined).

Definition fb_build (entry : JValue) (d : Detected) : M (option MentionData) :=
  let commentData := det_commentData d in
  comment_id ← lift (Js.get commentData "comment_id");
  logged ← lift (Js.toString comment_id);
  from ← lift (Js.get commentData "from");
  post_id ← lift (Js.get commentData "post_id");
  '(postContent, postUrl) ← fb_fetch post_id d;
  time ← lift (Js.get entry "time");
  mret (Some {| platform := "facebook";
                postId := Js.or post_id (JStr "");
                postUrl := postUrl;
                postContent := postContent;
                commentId := Js.or comment_id (JStr "");
                commentText := det_commentText d;
                taggerId := Js.or (Js.get_opt from "id") (JStr "");
                taggerName := Js.or (Js.get_opt from "name") (JStr "");
                taggerUsername := JUndefined;
                taggerProfilePicUrl := JUndefined;
                mentionedUsername := det_username d;
                timestamp := time |}).

Definition ig_detect (change : JValue) : Result (option Detected) :=
  field ← Js.get change "field";
  if negb (Js.is_str field "comments") then Ok None else
  commentData ← Js.get change "value";
  if negb (Js.truthy commentData) then Ok None else
  text ← Js.get commentData "text";
  let commentText := Js.or text (JStr "") in
  mentionedUsername ← mentionedUsername_loop commentText (businessIgUsernames cfg);
  if negb (Str.nonempty mentionedUsername) then Ok None
  else Ok (Some {| det_commentData := commentData;
                   det_commentText := commentText;
                   det_pageId := "";
                   det_username := mentionedUsername |}).

Definition ig_associatedPage (d : Detected) : option Page.t :=
  List.find (λ page, bool_decide (Page.instagramUsername page = Some (det_username d)))
            (pages cfg).

(** The caption and permalink looked up for a detected Instagram mention. *)
Definition ig_fetch_media (mediaId : JValue) (d : Detected) : M (JValue * JValue) :=
  if Js.truthy mediaId then
    let pageAccessToken := associatedPageToken cfg (ig_associatedPage d) in
    if Str.nonempty pageAccessToken then
      mediaDetails ← getInstagramMediaDetails axios_get mediaId pageAccessToken;
      if Js.truthy mediaDetails then
        caption ← lift (Js.get mediaDetails "caption");
        permalink ← lift (Js.get mediaDetails "permalink");
        mret (caption, permalink)
      else mret (JUndefined, JUndefined)
    else mret (JUndefined, JUndefined)
  else mret (JUndefined, JUndefined).

(** The user name and picture looked up for the author of the comment. *)
Definition ig_fetch_tagger (from : JValue) (d : Detected) : M (JValue * JValue) :=
  let fromUsername := Js.or (Js.get_opt from "username") (JStr "") in
  let fromId := Js.get_opt from "id" in
  if Js.truthy fromId then
    let pageAccessToken := associatedPageToken cfg (ig_associatedPage d) in
    if Str.nonempty pageAccessToken then
      taggerDetails ← getInstagramUserDetails axios_get fromId pageAccessToken;
      if Js.truthy taggerDetails then
        username ← lift (Js.get taggerDetails "username");
        picture ← lift (Js.get taggerDetails "profile_picture_url");
        mret (if Js.truthy username then username else fromUsername, picture)
      else mret (fromUsername, JUndefined)
    else mret (fromUsername, JUndefined)
  else mret (fromUsername, JUndefined).

Definition ig_build (entry : JValue) (d : Detected) : M (option MentionData) :=
  let commentData := det_commentData d in
  id ← lift (Js.get commentData "id");
  logged ← lift (Js.toString id);
  media ← lift (Js.get commentData "media");
  let mediaId := Js.get_opt media "id" in
  '(postContent, postUrl) ← ig_fetch_media mediaId d;
  from ← lift (Js.get commentData "from");
  '(taggerUsername, taggerProfilePicUrl) ← ig_fetch_tagger from d;
  time ← lift (Js.get entry "time");
  mret (Some {| platform := "instagram";
                postId := Js.or mediaId (JStr "");
                postUrl := postUrl;
                postContent := postContent;
                commentId := Js.or id (JStr "");
                commentText := det_commentText d;
                taggerId := Js.or (Js.get_opt from "id") (JStr "");
                taggerName := JUndefined;
                taggerUsername := taggerUsername;
                taggerProfilePicUrl := taggerProfilePicUrl;
                mentionedUsername := det_username d;
                timestamp := time |}).

(** The three phases in sequence. *)
Definition run_phases
    (detect : JValue → Result (option Detected))
    (build : JValue → Detected → M (option MentionData))
    (entry : JValue) : M (option MentionData) :=
  c ← lift (first_change entry);
  match c with
  | None => mret None
  | Some change =>
      d ← lift (detect change);
      match d with
      | None => mret None
      | Some d => build entry d
      end
  end.

(** The literal texts whose presence in a comment counts as a mention. *)
Definition username_needles : list string :=
  map (λ u, "@" +:+ u) (businessIgUsernames cfg).

Definition page_needles : list string :=
  flat_map (λ p, ["@" +:+ Page.name p; "@[" +:+ Page.id p +:+ "]"]) (pages cfg).

End Phases.

(** ** Vocabulary of the statements *)

(** A computation that cannot throw and only talks to the network. *)
Definition fetches {A} (m : M A) : Prop :=
  ∀ past, ∃ a ev, m past = (Ok a, ev) ∧ Forall (λ e, is_network e = true) ev.

(** A computation all of whose events satisfy [P]. *)
Definition emits {A} (P : Event → Prop) (m : M A) : Prop :=
  ∀ past, Forall P (events (m past)).



(** [entry] is a Facebook feed comment whose text is [text]. *)
Definition fb_comment_text (entry : JValue) (text : string) : Prop :=
  ∃ change value message,
    first_change entry = Ok (Some change) ∧
    Js.get change "field" = Ok (JStr "feed") ∧
    Js.get change "value" = Ok value ∧
    Js.truthy value = true ∧
    Js.get value "item" = Ok (JStr "comment") ∧
    Js.get value "message" = Ok message ∧
    Js.or message (JStr "") = JStr text.

(** [entry] is an Instagram comment whose text is [text]. *)
Definition ig_comment_text (entry : JValue) (text : string) : Prop :=
  ∃ change value message,
    first_change entry = Ok (Some change) ∧
    Js.get change "field" = Ok (JStr "comments") ∧
    Js.get change "value" = Ok value ∧
    Js.truthy value = true ∧
    Js.get value "text" = Ok message ∧
    Js.or message (JStr "") = JStr text.

(** [entry] is a Facebook feed comment whose text is [text] and whose
    [comment_id] can be written to the log. *)
Definition fb_logged_comment (entry : JValue) (text : string) : Prop :=
  ∃ change value message comment_id logged,
    first_change entry = Ok (Some change) ∧
    Js.get change "field" = Ok (JStr "feed") ∧
    Js.get change "value" = Ok value ∧
    Js.truthy value = true ∧
    Js.get value "item" = Ok (JStr "comment") ∧
    Js.get value "message" = Ok message ∧
    Js.or message (JStr "") = JStr text ∧
    Js.get value "comment_id" = Ok comment_id ∧
    Js.toString comment_id = Ok logged.

(** [entry] is an Instagram comment whose text is [text] and whose [id] can
    be written to the log. *)
Definition ig_logged_comment (entry : JValue) (text : string) : Prop :=
  ∃ change value message id logged,
    first_change entry = Ok (Some change) ∧
    Js.get change "field" = Ok (JStr "comments") ∧
    Js.get change "value" = Ok value ∧
    Js.truthy value = true ∧
    Js.get value "text" = Ok message ∧
    Js.or message (JStr "") = JStr text ∧
    Js.get value "id" = Ok id ∧
    Js.toString id = Ok logged.

(** The first change of [entry] is not a Facebook feed comment. *)
Definition fb_irrelevant (entry : JValue) : Prop :=
  ∃ change,
    first_change entry = Ok (Some change) ∧
    ((∃ field, Js.get change "field" = Ok field ∧ field ≠ JStr "feed") ∨
     (∃ value item, Js.get change "value" = Ok value ∧
                    Js.get value "item" = Ok item ∧ item ≠ JStr "comment")).

(** The first change of [entry] is not an Instagram comment. *)
Definition ig_irrelevant (entry : JValue) : Prop :=
  ∃ change field,
    first_change entry = Ok (Some change) ∧
    Js.get change "field" = Ok field ∧ field ≠ JStr "comments".

(** The acknowledgment of a POST. *)
Definition ack : Event := Respond 200 (JStr "EVENT_RECEIVED").

(** The acknowledgment is the first thing a handler does. *)
Definition ack_first (evs : list Event) : Prop := ∃ rest, evs = ack :: rest.

(** The handshake as prose has it, with "present" read as "the query has
    the key": the list of responses [respond] sends for [query] when the
    configured token is [expected]. *)
Definition handshake_by_presence
    (respond : list (string * JValue) → list Event) (expected : string)
    (query : list (string * JValue)) : Prop :=
  let mode := Js.assoc "hub.mode" query in
  let token := Js.assoc "hub.verify_token" query in
  let challenge := Js.of_option (Js.assoc "hub.challenge" query) in
  (is_Some mode → is_Some token →
   mode = Some (JStr "subscribe") ∧ token = Some (JStr expected) →
   respond query = [Respond 200 challenge]) ∧
  (is_Some mode → is_Some token →
   ¬ (mode = Some (JStr "subscribe") ∧ token = Some (JStr expected)) →
   respond query = [RespondStatus 403]) ∧
  (mode = None ∨ token = None →
   ∃ status, respond query = [RespondStatus status] ∧ status ≠ 200).

(** ** Sample data *)

Module Sample.

Definition env : gmap string string :=
  list_to_map
    [("META_VERIFY_TOKEN", "s3cret");
     ("PAGE_ID_1", "111"); ("PAGE_NAME_1", "Acme"); ("PAGE_TOKEN_1", "tokA");
     ("PAGE_IG_USERNAME_1", "acme");
     ("PAGE_ID_2", "222"); ("PAGE_NAME_2", "Beta"); ("PAGE_TOKEN_2", "tokB");
     ("PAGE_ID_3", "333"); ("PAGE_NAME_3", "Gamma");
     ("BUSINESS_IG_USERNAMES", "beta, acme ,,acme_shop")].

(** A network that is down. *)
Definition offline : list Event → string → list (string * JValue) → Result JValue :=
  λ _ _ _, Throw NetworkError.

(** A network that answers every request with the same post. *)
Definition online : list Event → string → list (string * JValue) → Result JValue :=
  λ _ _ _, Ok (JObj [("message", JStr "Our new shop");
                     ("permalink_url", JStr "https://fb.example/p/1");
                     ("caption", JStr "Our new shop");
                     ("permalink", JStr "https://ig.example/p/1")]).

Definition delivered : list Event → MentionData → Result unit := λ _ _, Ok tt.

Definition fb_change (message : string) : JValue :=
  JObj [("field", JStr "feed");
        ("value", JObj [("item", JStr "comment");
                        ("message", JStr message);
                        ("comment_id", JStr "c1");
                        ("post_id", JStr "p1");
                        ("from", JObj [("id", JStr "u1"); ("name", JStr "Ann")])])].

Definition ig_change (text : string) : JValue :=
  JObj [("field", JStr "comments");
        ("value", JObj [("id", JStr "c2");
                        ("text", JStr text);
                        ("media", JObj [("id", JStr "m1")]);
                        ("from", JObj [("id", JStr "u2"); ("username", JStr "bob")])])].

Definition entry_of (changes : list JValue) : JValue :=
  JObj [("id", JStr "111"); ("time", JNum 1700000000); ("changes", JArr changes)].

(** A comment whose [message] is a number: [includes] is not a function. *)
Definition malformed_entry : JValue :=
  entry_of [JObj [("field", JStr "feed");
                  ("value", JObj [("item", JStr "comment"); ("message", JNum 5)])]].

Definition accounts : list (string * Legacy.Account) :=
  [("acme", {| Legacy.acc_pageId := JStr "111";
               Legacy.acc_token := JStr "tokA";
               Legacy.acc_name := JStr "Acme" |})].

Definition legacy_pages : list (string * Legacy.PageInfo) :=
  [("111", {| Legacy.name := JStr "Acme"; Legacy.token := JStr "tokA" |})].

Definition legacy_comment (text : string) : JValue :=
  JObj [("field", JStr "comments");
        ("value", JObj [("id", JStr "c3"); ("text", JStr text); ("media_id", JStr "m1")])].

Definition payload (object : string) (entries : list JValue) : JValue :=
  JObj [("object", JStr object); ("entry", JArr entries)].

End Sample.

(** * Properties *)

(** ** Substrings *)

Section StrFacts.

Lemma app_cons (c : ascii) (a b : string) : String c a +:+ b = String c (a +:+ b).
Proof. reflexivity. Qed.

Lemma prefix_spec (p s : string) :
  String.prefix p s = true ↔ ∃ after, s = p +:+ after.
Proof.
  revert s. induction p as [|c p IH]; intros s.
  - destruct s; simpl; split; eauto.
  - destruct s as [|d s]; simpl.
    + split; [done | intros [after H]; discriminate H].
    + destruct (Ascii.ascii_dec c d) as [->|Hne].
      * rewrite IH. split; intros [after H]; exists after.
        -- by rewrite app_cons, H.
        -- rewrite app_cons in H. by injection H.
      * split; [done | intros [after H]; rewrite app_cons in H; injection H; congruence].
Qed.

Lemma includes_spec (needle hay : string) :
  Str.includes needle hay = true ↔ Str.is_substring needle hay.
Proof.
  unfold Str.is_substring. induction hay as [|c hay IH].
  - cbn [Str.includes]. rewrite orb_false_r, prefix_spec. split.
    + intros [after H]. by exists "", after.
    + intros ([|b before] & after & H); [by exists after | discriminate H].
  - cbn [Str.includes]. rewrite orb_true_iff, IH, prefix_spec. split.
    + intros [[after H] | (before & after & H)].
      * by exists "", after.
      * exists (String c before), after. by rewrite app_cons, H.
    + intros ([|b before] & after & H).
      * left. by exists after.
      * right. exists before, after. rewrite app_cons in H. by injection H.
Qed.

Lemma includes_false (needle hay : string) :
  Str.includes needle hay = false ↔ ¬ Str.is_substring needle hay.
Proof.
  rewrite <- includes_spec. destruct (Str.includes needle hay); split; done.
Qed.

Lemma nonempty_spec (s : string) : Str.nonempty s = true ↔ s ≠ "".
Proof. destruct s; simpl; split; done. Qed.

Lemma nonempty_false (s : string) : Str.nonempty s = false ↔ s = "".
Proof. destruct s; simpl; split; done. Qed.

End StrFacts.

(** ** Reasoning about computations *)

Section MonadFacts.

Context {A B : Type}.

Lemma bind_lift (r : Result A) (k : A → M B) (past : list Event) :
  (lift r ≫= k) past =
  match r with
  | Ok a => k a past
  | Throw e => (Throw e, [])
  end.
Proof.
  unfold mbind, M_bind, lift. destruct r as [a|e]; [|done].
  rewrite app_nil_r. by destruct (k a past).
Qed.

Lemma bind_ret (a : A) (k : A → M B) (past : list Event) :
  (mret a ≫= k) past = k a past.
Proof.
  unfold mbind, M_bind, mret, M_ret.
  rewrite app_nil_r. by destruct (k a past).
Qed.

Lemma bind_run (m : M A) (k : A → M B) (past : list Event) :
  (m ≫= k) past =
  match m past with
  | (Ok a, ev) => (outcome (k a (past ++ ev)), ev ++ events (k a (past ++ ev)))
  | (Throw e, ev) => (Throw e, ev)
  end.
Proof.
  unfold mbind, M_bind. destruct (m past) as [[a|e] ev]; [|done].
  by destruct (k a (past ++ ev)).
Qed.

End MonadFacts.

Lemma rbind_ok {A B} (a : A) (f : A → Result B) : (Ok a ≫= f) = f a.
Proof. reflexivity. Qed.

Lemma rbind_throw {A B} (e : JsError) (f : A → Result B) : (Throw e ≫= f) = Throw e.
Proof. reflexivity. Qed.

Lemma try_catch_ok {A} (m : M A) (h : JsError → M A) (past : list Event) a ev :
  m past = (Ok a, ev) → try_catch m h past = (Ok a, ev).
Proof. unfold try_catch. by intros ->. Qed.

Lemma try_catch_throw {A} (m : M A) (x : A) (past : list Event) e ev :
  m past = (Throw e, ev) → try_catch m (λ _, mret x) past = (Ok x, ev).
Proof. unfold try_catch. intros ->. cbn. by rewrite app_nil_r. Qed.

(** Normalise the leading binds of a computation. *)
Ltac norm :=
  repeat first [ rewrite bind_lift | rewrite bind_ret | rewrite rbind_ok
               | rewrite rbind_throw | progress cbv beta iota ].

(** Case analysis on whatever the left-hand computation inspects next. *)
Ltac head_step :=
  lazymatch goal with
  | |- (if ?b then _ else _) _ = _ => destruct b eqn:?
  | |- (if ?b then _ else _) = _ => destruct b eqn:?
  | |- match ?r with Ok _ => _ | Throw _ => _ end = _ => destruct r eqn:?
  | |- (let '(_, _) := ?p in _) = _ => destruct p eqn:?
  | |- (let '(_, _) := ?p in _) _ = _ => destruct p eqn:?
  end.

Section PhaseFacts.

Variable cfg : Config.
Variable axios_get : list Event → string → list (string * JValue) → Result JValue.

Lemma fb_body_split (entry : JValue) (past : list Event) :
  processFacebookWebhook_body cfg axios_get entry past =
  run_phases (fb_detect cfg) (fb_build cfg axios_get) entry past.
Proof.
  unfold processFacebookWebhook_body, run_phases, first_change, fb_detect, fb_build,
    fb_fetch.
  norm. repeat (head_step; norm; try reflexivity).
Qed.

Lemma ig_body_split (entry : JValue) (past : list Event) :
  processInstagramWebhook_body cfg axios_get entry past =
  run_phases (ig_detect cfg) (ig_build cfg axios_get) entry past.
Proof.
  unfold processInstagramWebhook_body, run_phases, first_change, ig_detect, ig_build,
    ig_fetch_media, ig_fetch_tagger, ig_associatedPage.
  norm. repeat (head_step; norm; try reflexivity).
Qed.

End PhaseFacts.

(** ** Property access *)

Lemma get_defined (v : JValue) (k : string) :
  Js.nullish v = false → ∃ x, Js.get v k = Ok x.
Proof. destruct v; simpl; intros; try done; eauto. Qed.

Lemma get_ok_nullish (v : JValue) (k : string) (x : JValue) :
  Js.get v k = Ok x → Js.nullish v = false.
Proof. by destruct v. Qed.

Lemma truthy_nullish (v : JValue) : Js.truthy v = true → Js.nullish v = false.
Proof. by destruct v. Qed.

Lemma first_change_nullish (entry change : JValue) :
  first_change entry = Ok (Some change) → Js.nullish entry = false.
Proof.
  unfold first_change. destruct (Js.get entry "changes") eqn:E; [|done].
  intros _. by eapply get_ok_nullish.
Qed.

Lemma first_change_array (entry first : JValue) (rest : list JValue) :
  Js.get entry "changes" = Ok (JArr (first :: rest)) →
  first_change entry = Ok (Some first).
Proof. unfold first_change. by intros ->. Qed.

(** ** The detail fetchers *)

Section FetchFacts.

Variable cfg : Config.
Variable axios_get : list Event → string → list (string * JValue) → Result JValue.

(** The shape shared by the three fetchers of the services: no request
    without a token, none for an identifier that cannot be printed, and
    [null] for whatever goes wrong. *)
Lemma guarded_get_run (accessToken : string) (id : Result string) (url : string → string)
    (params : list (string * JValue)) (past : list Event) :
  try_catch
    (if negb (Str.nonempty accessToken) then mret JNull
     else id ← lift id; http_get axios_get (url id) params)
    (λ _, mret JNull) past =
  if Str.nonempty accessToken
  then match id with
       | Ok id => (Ok (match axios_get past (url id) params with
                       | Ok data => data
                       | Throw _ => JNull
                       end), [HttpGet (url id) params])
       | Throw _ => (Ok JNull, [])
       end
  else (Ok JNull, []).
Proof.
  unfold try_catch. destruct (Str.nonempty accessToken); [|done].
  cbn [negb]. rewrite bind_lift. destruct id as [id|e]; [|done].
  unfold http_get. cbn. by destruct (axios_get past (url id) params).
Qed.

Lemma guarded_get_events (accessToken : string) (id : Result string) (url : string → string)
    (params : list (string * JValue)) (past : list Event) :
  ∃ data ev,
    try_catch
      (if negb (Str.nonempty accessToken) then mret JNull
       else id ← lift id; http_get axios_get (url id) params)
      (λ _, mret JNull) past = (Ok data, ev) ∧
    Forall (λ e, is_network e = true) ev ∧
    (Js.truthy data = true → ∃ printed, id = Ok printed).
Proof.
  rewrite guarded_get_run. destruct (Str.nonempty accessToken); [|by eexists _, _].
  destruct id as [id|e]; [|by eexists _, _].
  eexists _, _. split_and!; [reflexivity | by repeat constructor | eauto].
Qed.

Lemma fetches_ret {A} (a : A) : fetches (mret a).
Proof. intros past. by exists a, []. Qed.

Lemma fetches_lift {A} (a : A) : fetches (lift (Ok a)).
Proof. intros past. by exists a, []. Qed.

Lemma fetches_bind {A B} (m : M A) (k : A → M B) :
  fetches m → (∀ a, fetches (k a)) → fetches (m ≫= k).
Proof.
  intros Hm Hk past. destruct (Hm past) as (a & ev & E & Hev).
  destruct (Hk a (past ++ ev)) as (b & ev' & E' & Hev').
  exists b, (ev ++ ev'). rewrite bind_run, E, E'. split; [done|].
  by apply Forall_app.
Qed.

Lemma fetches_get_truthy {A} (v : JValue) (key : string) (k : JValue → M A) :
  Js.nullish v = false → (∀ x, fetches (k x)) → fetches (lift (Js.get v key) ≫= k).
Proof.
  intros Hv Hk. destruct (get_defined v key Hv) as [x ->].
  apply fetches_bind; [apply fetches_lift | done].
Qed.

Lemma getInstagramMediaDetails_fetches mediaId accessToken :
  fetches (getInstagramMediaDetails axios_get mediaId accessToken).
Proof.
  intros past. unfold getInstagramMediaDetails.
  destruct (guarded_get_events accessToken (Js.toString mediaId)
              (λ id, IG_GRAPH_URL +:+ "/" +:+ id)
              [("access_token", JStr accessToken); ("fields", JStr "permalink,caption")]
              past) as (data & ev & Hrun & Hev & _).
  by exists data, ev.
Qed.

Lemma getInstagramUserDetails_fetches userId accessToken :
  fetches (getInstagramUserDetails axios_get userId accessToken).
Proof.
  intros past. unfold getInstagramUserDetails.
  destruct (guarded_get_events accessToken (Js.toString userId)
              (λ id, IG_GRAPH_URL +:+ "/" +:+ id)
              [("access_token", JStr accessToken);
               ("fields", JStr "username,profile_picture_url")]
              past) as (data & ev & Hrun & Hev & _).
  by exists data, ev.
Qed.

Ltac fetches_tac :=
  repeat first
    [ apply fetches_ret
    | apply getInstagramMediaDetails_fetches
    | apply getInstagramUserDetails_fetches
    | apply fetches_get_truthy; [by apply truthy_nullish | intros ?]
    | apply fetches_bind; [| intros ?]
    | match goal with
      | |- fetches (if ?b then _ else _) => destruct b eqn:?
      end ].

(** The fallback URL is only built from a post id that was printed before,
    for the request. *)
Lemma fb_fetch_fetches (post_id : JValue) (d : Detected) :
  fetches (fb_fetch cfg axios_get post_id d).
Proof.
  unfold fb_fetch.
  destruct (Js.truthy post_id); [|apply fetches_ret]. cbv zeta.
  destruct (Str.nonempty (getPageAccessToken cfg (Some (det_pageId d))));
    [|apply fetches_ret].
  intros past. rewrite bind_run. unfold getFacebookPostDetails.
  destruct (guarded_get_events (getPageAccessToken cfg (Some (det_pageId d)))
              (Js.toString post_id) (λ id, FB_GRAPH_URL +:+ "/" +:+ id)
              [("access_token", JStr (getPageAccessToken cfg (Some (det_pageId d))));
               ("fields", JStr "message,permalink_url")]
              past) as (postDetails & ev & -> & Hev & Hprinted).
  cbn [outcome events].
  destruct (Js.truthy postDetails) eqn:Hdetails.
  - destruct (Hprinted eq_refl) as [printed Hid].
    destruct (get_defined postDetails "message" (truthy_nullish _ Hdetails))
      as [content ->].
    destruct (get_defined postDetails "permalink_url" (truthy_nullish _ Hdetails))
      as [permalink ->].
    norm. destruct (Js.truthy permalink).
    + eexists _, _. split; [reflexivity|]. cbn. by rewrite app_nil_r.
    + rewrite Hid. norm. eexists _, _. split; [reflexivity|]. cbn. by rewrite app_nil_r.
  - eexists _, _. split; [reflexivity|]. cbn. by rewrite app_nil_r.
Qed.

Lemma ig_fetch_media_fetches (mediaId : JValue) (d : Detected) :
  fetches (ig_fetch_media cfg axios_get mediaId d).
Proof. unfold ig_fetch_media. fetches_tac. Qed.

Lemma ig_fetch_tagger_fetches (from : JValue) (d : Detected) :
  fetches (ig_fetch_tagger cfg axios_get from d).
Proof. unfold ig_fetch_tagger. fetches_tac. Qed.

(** Once a mention is detected and logged, the record is built whatever the
    network answers, around the detected text and username; when the id of
    the comment cannot be logged, the block throws before any request. *)
Lemma fb_build_cases (entry : JValue) (d : Detected) (past : list Event) :
  Js.nullish entry = false →
  Js.truthy (det_commentData d) = true →
  ∃ comment_id,
    Js.get (det_commentData d) "comment_id" = Ok comment_id ∧
    match Js.toString comment_id with
    | Throw e => fb_build cfg axios_get entry d past = (Throw e, [])
    | Ok _ =>
        ∃ r ev,
          fb_build cfg axios_get entry d past = (Ok (Some r), ev) ∧
          commentText r = det_commentText d ∧
          mentionedUsername r = det_username d ∧
          platform r = "facebook" ∧
          Js.get entry "time" = Ok (timestamp r) ∧
          Forall (λ e, is_network e = true) ev
    end.
Proof.
  intros Hentry Hdata. unfold fb_build.
  apply truthy_nullish in Hdata.
  destruct (get_defined _ "comment_id" Hdata) as [comment_id Hid]. rewrite Hid.
  exists comment_id. split; [done|]. norm.
  destruct (Js.toString comment_id) as [logged|e]; [|done]. norm.
  destruct (get_defined _ "from" Hdata) as [from ->].
  destruct (get_defined _ "post_id" Hdata) as [post_id ->].
  destruct (get_defined _ "time" Hentry) as [time ->].
  norm. rewrite bind_run.
  destruct (fb_fetch_fetches post_id d past) as ([content url] & ev & -> & Hev).
  norm. cbn. eexists _, _. split; [reflexivity|]. cbn.
  rewrite app_nil_r. done.
Qed.

Lemma ig_build_cases (entry : JValue) (d : Detected) (past : list Event) :
  Js.nullish entry = false →
  Js.truthy (det_commentData d) = true →
  ∃ id,
    Js.get (det_commentData d) "id" = Ok id ∧
    match Js.toString id with
    | Throw e => ig_build cfg axios_get entry d past = (Throw e, [])
    | Ok _ =>
        ∃ r ev,
          ig_build cfg axios_get entry d past = (Ok (Some r), ev) ∧
          commentText r = det_commentText d ∧
          mentionedUsername r = det_username d ∧
          platform r = "instagram" ∧
          Js.get entry "time" = Ok (timestamp r) ∧
          Forall (λ e, is_network e = true) ev
    end.
Proof.
  intros Hentry Hdata. unfold ig_build.
  apply truthy_nullish in Hdata.
  destruct (get_defined _ "id" Hdata) as [id Hid]. rewrite Hid.
  exists id. split; [done|]. norm.
  destruct (Js.toString id) as [logged|e]; [|done]. norm.
  destruct (get_defined _ "media" Hdata) as [media ->].
  destruct (get_defined _ "from" Hdata) as [from ->].
  destruct (get_defined _ "time" Hentry) as [time ->].
  norm. rewrite bind_run.
  destruct (ig_fetch_media_fetches (Js.get_opt media "id") d past)
    as ([content url] & ev & -> & Hev).
  norm. rewrite bind_run.
  destruct (ig_fetch_tagger_fetches from d (past ++ ev))
    as ([username picture] & ev' & -> & Hev').
  norm. cbn. eexists _, _. split; [reflexivity|]. cbn.
  rewrite app_nil_r. split_and!; try done. by apply Forall_app.
Qed.

End FetchFacts.

(** ** The two search loops *)

Section LoopFacts.

(** On a string, the username loop cannot throw. *)
Lemma username_loop_str (text : string) (usernames : list string) :
  mentionedUsername_loop (JStr text) usernames =
  Ok (default "" (List.find (λ u, Str.includes ("@" +:+ u) text) usernames)).
Proof.
  induction usernames as [|u rest IH]; [done|].
  cbn [mentionedUsername_loop List.find Js.includes]. rewrite rbind_ok.
  by destruct (Str.includes ("@" +:+ u) text).
Qed.

Lemma username_loop_hit (text : JValue) (before after : list string) (u : string) :
  Forall (λ v, Js.includes text ("@" +:+ v) = Ok false) before →
  Js.includes text ("@" +:+ u) = Ok true →
  mentionedUsername_loop text (before ++ u :: after) = Ok u.
Proof.
  intros Hmiss Hhit. induction Hmiss as [|v rest Hv Hrest IH].
  - cbn [app mentionedUsername_loop]. by rewrite Hhit.
  - cbn [app mentionedUsername_loop]. by rewrite Hv, rbind_ok.
Qed.

Lemma page_mentioned_str (text : string) (page : Page.t) :
  page_mentioned (JStr text) page =
  Ok (Str.includes ("@" +:+ Page.name page) text ||
      Str.includes ("@[" +:+ Page.id page +:+ "]") text).
Proof.
  unfold page_mentioned. cbn [Js.includes]. rewrite rbind_ok.
  by destruct (Str.includes ("@" +:+ Page.name page) text).
Qed.

(** A page test that succeeds found one of the two page needles. *)
Lemma page_mentioned_needle (text : JValue) (page : Page.t) :
  page_mentioned text page = Ok true →
  Js.includes text ("@" +:+ Page.name page) = Ok true ∨
  Js.includes text ("@[" +:+ Page.id page +:+ "]") = Ok true.
Proof.
  unfold page_mentioned.
  destruct (Js.includes text ("@" +:+ Page.name page)) as [[|]|]; [auto | | done].
  rewrite rbind_ok. auto.
Qed.

Lemma page_loop_found (text : JValue) (ps : list Page.t) (pageId username : string) :
  mentionedPage_loop text ps = Ok (pageId, username) →
  pageId ≠ "" ∨ username ≠ "" →
  ∃ page, page ∈ ps ∧ page_mentioned text page = Ok true ∧ pageId = Page.id page.
Proof.
  induction ps as [|page rest IH]; intros Hloop Hne.
  - injection Hloop as <- <-. by destruct Hne.
  - cbn [mentionedPage_loop] in Hloop.
    destruct (page_mentioned text page) as [[|]|] eqn:E; [| |done].
    + rewrite rbind_ok in Hloop. injection Hloop as <- <-.
      exists page. split_and!; [left | done..].
    + rewrite rbind_ok in Hloop.
      destruct (IH Hloop Hne) as (p & Hin & Hp & Hid).
      exists p. split_and!; [by right | done..].
Qed.

Lemma page_loop_miss (text : JValue) (ps : list Page.t) :
  Forall (λ p, page_mentioned text p = Ok false) ps →
  mentionedPage_loop text ps = Ok ("", "").
Proof.
  induction 1 as [|p rest Hp Hrest IH]; [done|].
  cbn [mentionedPage_loop]. by rewrite Hp, rbind_ok.
Qed.

End LoopFacts.

(** ** Detection *)

Lemma bind_ok_inv {A B} (r : Result A) (f : A → Result B) (b : B) :
  (r ≫= f) = Ok b → ∃ a, r = Ok a ∧ f a = Ok b.
Proof. destruct r as [a|e]; [eauto | done]. Qed.

Lemma is_str_true (v : JValue) (s : string) : Js.is_str v s = true → v = JStr s.
Proof. destruct v; try done. cbn. by intros ->%String.eqb_eq. Qed.

Section DetectFacts.

Variable cfg : Config.

Lemma fb_detect_inv (change : JValue) (d : Detected) :
  fb_detect cfg change = Ok (Some d) →
  ∃ message byUsername,
    Js.get change "field" = Ok (JStr "feed") ∧
    Js.get change "value" = Ok (det_commentData d) ∧
    Js.truthy (det_commentData d) = true ∧
    Js.get (det_commentData d) "item" = Ok (JStr "comment") ∧
    Js.get (det_commentData d) "message" = Ok message ∧
    det_commentText d = Js.or message (JStr "") ∧
    mentionedUsername_loop (det_commentText d) (businessIgUsernames cfg) = Ok byUsername ∧
    ((byUsername ≠ "" ∧ det_username d = byUsername ∧ det_pageId d = "") ∨
     (byUsername = "" ∧
      mentionedPage_loop (det_commentText d) (pages cfg) =
        Ok (det_pageId d, det_username d) ∧
      (det_pageId d ≠ "" ∨ det_username d ≠ ""))).
Proof.
  unfold fb_detect. intros H.
  apply bind_ok_inv in H as (field & Hfield & H).
  destruct (Js.is_str field "feed") eqn:Hfeed; [|done].
  apply is_str_true in Hfeed as ->. cbn [negb] in H.
  apply bind_ok_inv in H as (value & Hvalue & H).
  destruct (Js.truthy value) eqn:Htruthy; [|done]. cbn [negb] in H.
  apply bind_ok_inv in H as (item & Hitem & H).
  destruct (Js.is_str item "comment") eqn:Hcomment; [|done].
  apply is_str_true in Hcomment as ->. cbn [negb] in H.
  apply bind_ok_inv in H as (message & Hmessage & H). cbv zeta in H.
  apply bind_ok_inv in H as (byUsername & Hloop & H).
  apply bind_ok_inv in H as ([pageId username] & Hfound & H).
  destruct (negb (Str.nonempty username) && negb (Str.nonempty pageId)) eqn:Hnone;
    [done|].
  injection H as <-. cbn. exists message, byUsername. split_and!; try done.
  destruct (Str.nonempty byUsername) eqn:Hby.
  - injection Hfound as <- <-. left. by rewrite <- nonempty_spec.
  - right. apply nonempty_false in Hby. split_and!; [done..|].
    apply andb_false_iff in Hnone as [E|E];
      apply negb_false_iff, nonempty_spec in E; auto.
Qed.

Lemma ig_detect_inv (change : JValue) (d : Detected) :
  ig_detect cfg change = Ok (Some d) →
  ∃ text,
    Js.get change "field" = Ok (JStr "comments") ∧
    Js.get change "value" = Ok (det_commentData d) ∧
    Js.truthy (det_commentData d) = true ∧
    Js.get (det_commentData d) "text" = Ok text ∧
    det_commentText d = Js.or text (JStr "") ∧
    mentionedUsername_loop (det_commentText d) (businessIgUsernames cfg) =
      Ok (det_username d) ∧
    det_username d ≠ "".
Proof.
  unfold ig_detect. intros H.
  apply bind_ok_inv in H as (field & Hfield & H).
  destruct (Js.is_str field "comments") eqn:Hcomments; [|done].
  apply is_str_true in Hcomments as ->. cbn [negb] in H.
  apply bind_ok_inv in H as (value & Hvalue & H).
  destruct (Js.truthy value) eqn:Htruthy; [|done]. cbn [negb] in H.
  apply bind_ok_inv in H as (text & Htext & H). cbv zeta in H.
  apply bind_ok_inv in H as (username & Hloop & H).
  destruct (Str.nonempty username) eqn:Hname; [|done]. cbn [negb] in H.
  injection H as <-. cbn. exists text. split_and!; try done.
  by apply nonempty_spec.
Qed.

(** A change that is not a feed comment is dropped by detection. *)
Lemma fb_detect_irrelevant (change field : JValue) :
  Js.get change "field" = Ok field →
  field ≠ JStr "feed" →
  fb_detect cfg change = Ok None.
Proof.
  unfold fb_detect. intros -> Hfield. rewrite rbind_ok.
  destruct field as [| | | |s| |]; try done. cbn.
  destruct (String.eqb_spec s "feed") as [->|]; done.
Qed.

Lemma fb_detect_not_comment (change value item : JValue) :
  Js.get change "value" = Ok value →
  Js.get value "item" = Ok item →
  item ≠ JStr "comment" →
  fb_detect cfg change = Ok None.
Proof.
  unfold fb_detect. intros Hvalue Hitem Hne.
  assert (∃ field, Js.get change "field" = Ok field) as [field ->].
  { eapply get_defined, get_ok_nullish, Hvalue. }
  rewrite rbind_ok. destruct (negb (Js.is_str field "feed")); [done|].
  rewrite Hvalue, rbind_ok. destruct (negb (Js.truthy value)); [done|].
  rewrite Hitem, rbind_ok.
  destruct item as [| | | |s| |]; try done. cbn.
  destruct (String.eqb_spec s "comment") as [->|]; done.
Qed.

Lemma ig_detect_irrelevant (change field : JValue) :
  Js.get change "field" = Ok field →
  field ≠ JStr "comments" →
  ig_detect cfg change = Ok None.
Proof.
  unfold ig_detect. intros -> Hfield. rewrite rbind_ok.
  destruct field as [| | | |s| |]; try done. cbn.
  destruct (String.eqb_spec s "comments") as [->|]; done.
Qed.

(** Detection on a feed comment whose text is a string. *)
Lemma fb_detect_comment (change value message : JValue) (text : string) :
  Js.get change "field" = Ok (JStr "feed") →
  Js.get change "value" = Ok value →
  Js.truthy value = true →
  Js.get value "item" = Ok (JStr "comment") →
  Js.get value "message" = Ok message →
  Js.or message (JStr "") = JStr text →
  fb_detect cfg change =
  let byUsername :=
    default "" (List.find (λ u, Str.includes ("@" +:+ u) text) (businessIgUsernames cfg)) in
  '(mentionedPageId, mentionedUsername) ← (
     if Str.nonempty byUsername then Ok ("", byUsername)
     else mentionedPage_loop (JStr text) (pages cfg));
  if negb (Str.nonempty mentionedUsername) && negb (Str.nonempty mentionedPageId)
  then Ok None
  else Ok (Some {| det_commentData := value;
                   det_commentText := JStr text;
                   det_pageId := mentionedPageId;
                   det_username := mentionedUsername |}).
Proof.
  unfold fb_detect. intros Hfield Hvalue Htruthy Hitem Hmessage Htext.
  rewrite Hfield, rbind_ok. cbn [negb Js.is_str String.eqb Ascii.eqb Bool.eqb].
  cbv beta iota. rewrite Hvalue, rbind_ok, Htruthy. cbn [negb].
  rewrite Hitem, rbind_ok. cbn [negb Js.is_str String.eqb Ascii.eqb Bool.eqb].
  cbv beta iota. rewrite Hmessage, rbind_ok. cbv beta zeta. rewrite Htext.
  by rewrite username_loop_str, rbind_ok.
Qed.

Lemma ig_detect_comment (change value message : JValue) (text : string) :
  Js.get change "field" = Ok (JStr "comments") →
  Js.get change "value" = Ok value →
  Js.truthy value = true →
  Js.get value "text" = Ok message →
  Js.or message (JStr "") = JStr text →
  ig_detect cfg change =
  let mentionedUsername :=
    default "" (List.find (λ u, Str.includes ("@" +:+ u) text) (businessIgUsernames cfg)) in
  if negb (Str.nonempty mentionedUsername) then Ok None
  else Ok (Some {| det_commentData := value;
                   det_commentText := JStr text;
                   det_pageId := "";
                   det_username := mentionedUsername |}).
Proof.
  unfold ig_detect. intros Hfield Hvalue Htruthy Hmessage Htext.
  rewrite Hfield, rbind_ok. cbn [negb Js.is_str String.eqb Ascii.eqb Bool.eqb].
  cbv beta iota. rewrite Hvalue, rbind_ok, Htruthy. cbn [negb].
  rewrite Hmessage, rbind_ok. cbv beta zeta. rewrite Htext.
  by rewrite username_loop_str, rbind_ok.
Qed.

End DetectFacts.

(** ** The extractors as a whole *)

Section ExtractorFacts.

Variable cfg : Config.
Variable axios_get : list Event → string → list (string * JValue) → Result JValue.

Lemma fb_detect_truthy (change : JValue) (d : Detected) :
  fb_detect cfg change = Ok (Some d) → Js.truthy (det_commentData d) = true.
Proof. intros H. by apply fb_detect_inv in H as (? & ? & _ & _ & Ht & _). Qed.

Lemma ig_detect_truthy (change : JValue) (d : Detected) :
  ig_detect cfg change = Ok (Some d) → Js.truthy (det_commentData d) = true.
Proof. intros H. by apply ig_detect_inv in H as (? & _ & _ & Ht & _). Qed.

(** Running the phases under the [catch] that maps every error to [null]. *)
Lemma run_phases_catch
    (detect : JValue → Result (option Detected))
    (build : JValue → Detected → M (option MentionData))
    (entry : JValue) (past : list Event) :
  try_catch (run_phases detect build entry) (λ _, mret None) past =
  match first_change entry with
  | Ok (Some change) =>
      match detect change with
      | Ok (Some d) => try_catch (build entry d) (λ _, mret None) past
      | _ => (Ok None, [])
      end
  | _ => (Ok None, [])
  end.
Proof.
  unfold try_catch, run_phases. rewrite bind_lift.
  destruct (first_change entry) as [[change|]|] eqn:Hc; [|done..].
  rewrite bind_lift.
  by destruct (detect change) as [[d|]|] eqn:Hd.
Qed.

Lemma processFacebookWebhook_run (entry : JValue) (past : list Event) :
  processFacebookWebhook cfg axios_get entry past =
  match first_change entry with
  | Ok (Some change) =>
      match fb_detect cfg change with
      | Ok (Some d) => try_catch (fb_build cfg axios_get entry d) (λ _, mret None) past
      | _ => (Ok None, [])
      end
  | _ => (Ok None, [])
  end.
Proof.
  rewrite <- run_phases_catch.
  unfold processFacebookWebhook, try_catch. by rewrite fb_body_split.
Qed.

Lemma processInstagramWebhook_run (entry : JValue) (past : list Event) :
  processInstagramWebhook cfg axios_get entry past =
  match first_change entry with
  | Ok (Some change) =>
      match ig_detect cfg change with
      | Ok (Some d) => try_catch (ig_build cfg axios_get entry d) (λ _, mret None) past
      | _ => (Ok None, [])
      end
  | _ => (Ok None, [])
  end.
Proof.
  rewrite <- run_phases_catch.
  unfold processInstagramWebhook, try_catch. by rewrite ig_body_split.
Qed.

(** A detected mention whose comment id can be logged gives a record. *)
Lemma processFacebookWebhook_detected (entry change : JValue) (d : Detected)
    (comment_id : JValue) (logged : string) (past : list Event) :
  first_change entry = Ok (Some change) →
  fb_detect cfg change = Ok (Some d) →
  Js.get (det_commentData d) "comment_id" = Ok comment_id →
  Js.toString comment_id = Ok logged →
  ∃ r ev,
    processFacebookWebhook cfg axios_get entry past = (Ok (Some r), ev) ∧
    commentText r = det_commentText d ∧
    mentionedUsername r = det_username d ∧
    Forall (λ e, is_network e = true) ev.
Proof.
  intros Hc Hd Hid Hlogged. rewrite processFacebookWebhook_run, Hc, Hd.
  destruct (fb_build_cases cfg axios_get entry d past) as (id' & Hid' & Hbuild).
  { by eapply first_change_nullish. }
  { by eapply fb_detect_truthy. }
  rewrite Hid in Hid'. injection Hid' as <-. rewrite Hlogged in Hbuild.
  destruct Hbuild as (r & ev & Hrun & Htext & Huser & _ & _ & Hev).
  exists r, ev. by rewrite (try_catch_ok _ _ _ _ _ Hrun).
Qed.

Lemma processInstagramWebhook_detected (entry change : JValue) (d : Detected)
    (id : JValue) (logged : string) (past : list Event) :
  first_change entry = Ok (Some change) →
  ig_detect cfg change = Ok (Some d) →
  Js.get (det_commentData d) "id" = Ok id →
  Js.toString id = Ok logged →
  ∃ r ev,
    processInstagramWebhook cfg axios_get entry past = (Ok (Some r), ev) ∧
    commentText r = det_commentText d ∧
    mentionedUsername r = det_username d ∧
    Forall (λ e, is_network e = true) ev.
Proof.
  intros Hc Hd Hid Hlogged. rewrite processInstagramWebhook_run, Hc, Hd.
  destruct (ig_build_cases cfg axios_get entry d past) as (id' & Hid' & Hbuild).
  { by eapply first_change_nullish. }
  { by eapply ig_detect_truthy. }
  rewrite Hid in Hid'. injection Hid' as <-. rewrite Hlogged in Hbuild.
  destruct Hbuild as (r & ev & Hrun & Htext & Huser & _ & _ & Hev).
  exists r, ev. by rewrite (try_catch_ok _ _ _ _ _ Hrun).
Qed.

(** Every run of an extractor ends in one of two ways: no record and no
    event; or a detection [d] and the record built around it, with only
    network requests emitted. *)
Lemma processFacebookWebhook_cases (entry : JValue) (past : list Event) :
  processFacebookWebhook cfg axios_get entry past = (Ok None, []) ∨
  ∃ change d r ev,
    first_change entry = Ok (Some change) ∧
    fb_detect cfg change = Ok (Some d) ∧
    processFacebookWebhook cfg axios_get entry past = (Ok (Some r), ev) ∧
    commentText r = det_commentText d ∧
    mentionedUsername r = det_username d ∧
    Forall (λ e, is_network e = true) ev.
Proof.
  destruct (first_change entry) as [[change|]|] eqn:Hc;
    [|left; by rewrite processFacebookWebhook_run, Hc..].
  destruct (fb_detect cfg change) as [[d|]|] eqn:Hd;
    [|left; by rewrite processFacebookWebhook_run, Hc, Hd..].
  destruct (fb_build_cases cfg axios_get entry d past) as (id & Hid & Hbuild).
  { by eapply first_change_nullish. }
  { by eapply fb_detect_truthy. }
  destruct (Js.toString id) as [logged|e] eqn:Hlogged.
  - right.
    destruct (processFacebookWebhook_detected entry change d id logged past)
      as (r & ev & Hrun); [done..|].
    by exists change, d, r, ev.
  - left. rewrite processFacebookWebhook_run, Hc, Hd.
    by rewrite (try_catch_throw _ _ _ _ _ Hbuild).
Qed.

Lemma processInstagramWebhook_cases (entry : JValue) (past : list Event) :
  processInstagramWebhook cfg axios_get entry past = (Ok None, []) ∨
  ∃ change d r ev,
    first_change entry = Ok (Some change) ∧
    ig_detect cfg change = Ok (Some d) ∧
    processInstagramWebhook cfg axios_get entry past = (Ok (Some r), ev) ∧
    commentText r = det_commentText d ∧
    mentionedUsername r = det_username d ∧
    Forall (λ e, is_network e = true) ev.
Proof.
  destruct (first_change entry) as [[change|]|] eqn:Hc;
    [|left; by rewrite processInstagramWebhook_run, Hc..].
  destruct (ig_detect cfg change) as [[d|]|] eqn:Hd;
    [|left; by rewrite processInstagramWebhook_run, Hc, Hd..].
  destruct (ig_build_cases cfg axios_get entry d past) as (id & Hid & Hbuild).
  { by eapply first_change_nullish. }
  { by eapply ig_detect_truthy. }
  destruct (Js.toString id) as [logged|e] eqn:Hlogged.
  - right.
    destruct (processInstagramWebhook_detected entry change d id logged past)
      as (r & ev & Hrun); [done..|].
    by exists change, d, r, ev.
  - left. rewrite processInstagramWebhook_run, Hc, Hd.
    by rewrite (try_catch_throw _ _ _ _ _ Hbuild).
Qed.

End ExtractorFacts.

(** ** The configuration built at startup *)

Section ConfigFacts.

Variable env : gmap string string.

Lemma env_or_undefined_filled (k : string) : env_or_undefined env k ≠ Some "".
Proof.
  unfold env_or_undefined. destruct (env !! k) as [v|]; [|done].
  destruct v; done.
Qed.

Lemma page_of_key_filled (idKey : string) (p : Page.t) :
  page_of_key env idKey = Some p →
  (Page.id p ≠ "" ∧ Page.name p ≠ "" ∧ Page.pageAccessToken p ≠ "") ∧
  Page.instagramUsername p ≠ Some "".
Proof.
  unfold page_of_key.
  destruct (Str.nonempty (env_or_empty env idKey)) eqn:Hid; [|done].
  destruct (Str.nonempty (env_or_empty env ("PAGE_NAME_" +:+ Str.drop 8 idKey)))
    eqn:Hname; [|done].
  destruct (Str.nonempty (env_or_empty env ("PAGE_TOKEN_" +:+ Str.drop 8 idKey)))
    eqn:Htoken; [|done].
  intros [= <-]. cbn. rewrite <- !nonempty_spec.
  split_and!; try done. apply env_or_undefined_filled.
Qed.

Lemma extractPages_filled :
  Forall (λ p, (Page.id p ≠ "" ∧ Page.name p ≠ "" ∧ Page.pageAccessToken p ≠ "") ∧
               Page.instagramUsername p ≠ Some "")
         (extractPages env).
Proof.
  unfold extractPages. apply Forall_forall. intros p Hp.
  apply list_elem_of_omap in Hp as (k & _ & Hk). by eapply page_of_key_filled.
Qed.

Lemma config_is_ok : config_ok (config env).
Proof.
  split; cbn.
  - eapply Forall_impl; [apply extractPages_filled | by intros p [Hp _]].
  - eapply Forall_impl; [apply extractPages_filled | by intros p [_ Hp]].
  - unfold getBusinessIgUsernames.
    destruct (0 <? Z.of_nat (length (extractBusinessIgUsernames env))).
    + unfold extractBusinessIgUsernames. apply Forall_forall. intros u Hu.
      apply list_elem_of_In, filter_In in Hu as [_ Hu]. by apply nonempty_spec.
    + apply Forall_forall. intros u Hu.
      apply list_elem_of_omap in Hu as (p & Hp & Hu).
      pose proof extractPages_filled as Hall.
      rewrite Forall_forall in Hall. destruct (Hall p Hp) as [_ Hig].
      intros ->. done.
Qed.

End ConfigFacts.

(** ** Page tokens *)

Section TokenFacts.

Variable cfg : Config.

Lemma find_page_some (pid : string) (p : Page.t) :
  List.find (λ p, String.eqb (Page.id p) pid) (pages cfg) = Some p →
  p ∈ pages cfg ∧ Page.id p = pid.
Proof.
  intros H. apply find_some in H as [Hin Heq].
  split; [by apply list_elem_of_In | by apply String.eqb_eq].
Qed.

Lemma find_page_exists (pid : string) :
  (∃ p, p ∈ pages cfg ∧ Page.id p = pid) →
  ∃ p, List.find (λ p, String.eqb (Page.id p) pid) (pages cfg) = Some p.
Proof.
  intros (p & Hin & Hid).
  destruct (List.find (λ p, String.eqb (Page.id p) pid) (pages cfg)) as [q|] eqn:E;
    [by exists q|].
  apply list_elem_of_In in Hin.
  pose proof (find_none _ _ E p Hin) as Hp. cbn in Hp.
  apply String.eqb_neq in Hp. done.
Qed.

Lemma find_page_none (pid : string) :
  (¬ ∃ p, p ∈ pages cfg ∧ Page.id p = pid) →
  List.find (λ p, String.eqb (Page.id p) pid) (pages cfg) = None.
Proof.
  intros Hno.
  destruct (List.find (λ p, String.eqb (Page.id p) pid) (pages cfg)) as [q|] eqn:E;
    [|done].
  destruct Hno. exists q. by apply find_page_some.
Qed.

(** The token handed out is always the token of some configured page,
    unless no page is configured. *)
Lemma getPageAccessToken_source (pageId : option string) :
  (∃ p, p ∈ pages cfg ∧ getPageAccessToken cfg pageId = Page.pageAccessToken p) ∨
  (pages cfg = [] ∧ getPageAccessToken cfg pageId = "").
Proof.
  unfold getPageAccessToken.
  assert (∀ found : option Page.t,
            (∀ p, found = Some p → p ∈ pages cfg) →
            (∃ p, p ∈ pages cfg ∧
                  match found with
                  | Some page => Page.pageAccessToken page
                  | None => match pages cfg with
                            | first :: _ => Page.pageAccessToken first
                            | [] => ""
                            end
                  end = Page.pageAccessToken p) ∨
            (pages cfg = [] ∧
             match found with
             | Some page => Page.pageAccessToken page
             | None => match pages cfg with
                       | first :: _ => Page.pageAccessToken first
                       | [] => ""
                       end
             end = "")) as Hgen.
  { intros [page|] Hfound.
    - left. exists page. split; [by apply Hfound | done].
    - destruct (pages cfg) as [|first rest]; [by right|].
      left. exists first. split; [left | done]. }
  apply Hgen. intros p Hp.
  destruct pageId as [pid|]; [|done].
  destruct (Str.nonempty pid); [|done].
  by apply find_page_some in Hp as [Hin _].
Qed.

End TokenFacts.

(** C10.  Every page of the configuration built at startup has a non-empty
    id, a non-empty name and a non-empty access token; hence, as soon as one
    page is configured, [getPageAccessToken] returns a non-empty token for
    every id it is asked about, absent ids included. *)
Theorem configured_pages_are_complete (env : gmap string string) :
  Forall (λ p, Page.id p ≠ "" ∧ Page.name p ≠ "" ∧ Page.pageAccessToken p ≠ "")
         (pages (config env)) ∧
  (pages (config env) ≠ [] →
   ∀ pageId : option string, getPageAccessToken (config env) pageId ≠ "").
Proof.
  pose proof (pages_filled _ (config_is_ok env)) as Hfilled.
  split; [done|]. intros Hsome pageId.
  destruct (getPageAccessToken_source (config env) pageId) as [(p & Hin & ->)|[Hnil _]];
    [|done].
  rewrite Forall_forall in Hfilled. by destruct (Hfilled p Hin) as (_ & _ & Htoken).
Qed.

Lemma configured_pages_are_complete_witness :
  pages (config Sample.env) ≠ [] ∧
  getPageAccessToken (config Sample.env) (Some "no-such-page") ≠ "".
Proof.
  split; [by vm_compute|].
  apply (configured_pages_are_complete Sample.env); by vm_compute.
Defined.

(** C8.  On the configuration built at startup, [getPageAccessToken] returns
    the token of the configured page with the requested id when there is
    one (the first such page in configuration order); the token of the
    first configured page when the id is absent or matches no page; and the
    empty string when no page is configured. *)
Theorem page_token_lookup (env : gmap string string) (pageId : option string) :
  let cfg := config env in
  (∀ pid,
     pageId = Some pid →
     (∃ p, p ∈ pages cfg ∧ Page.id p = pid) →
     ∃ p, List.find (λ p, String.eqb (Page.id p) pid) (pages cfg) = Some p ∧
          p ∈ pages cfg ∧ Page.id p = pid ∧
          getPageAccessToken cfg pageId = Page.pageAccessToken p) ∧
  ((pageId = None ∨
    ∃ pid, pageId = Some pid ∧ ¬ ∃ p, p ∈ pages cfg ∧ Page.id p = pid) →
   ∀ first rest, pages cfg = first :: rest →
                 getPageAccessToken cfg pageId = Page.pageAccessToken first) ∧
  (pages cfg = [] → getPageAccessToken cfg pageId = "").
Proof.
  intros cfg. pose proof (pages_filled _ (config_is_ok env)) as Hfilled.
  fold cfg in Hfilled. split_and!.
  - intros pid -> Hex.
    destruct (find_page_exists cfg pid Hex) as [p Hfind].
    destruct (find_page_some cfg pid p Hfind) as [Hin Hid].
    exists p. split_and!; try done.
    unfold getPageAccessToken. rewrite Forall_forall in Hfilled.
    destruct (Hfilled p Hin) as (Hne & _ & _). rewrite Hid in Hne.
    apply nonempty_spec in Hne. by rewrite Hne, Hfind.
  - intros Hmiss first rest Hpages. unfold getPageAccessToken.
    destruct Hmiss as [->|(pid & -> & Hno)]; [by rewrite Hpages|].
    rewrite (find_page_none cfg pid Hno), Hpages. by destruct (Str.nonempty pid).
  - intros Hnil. unfold getPageAccessToken. rewrite Hnil.
    destruct pageId as [pid|]; [|done]. by destruct (Str.nonempty pid).
Qed.

Lemma page_token_lookup_witness :
  getPageAccessToken (config Sample.env) (Some "222") = "tokB" ∧
  getPageAccessToken (config Sample.env) (Some "999") = "tokA" ∧
  getPageAccessToken (config Sample.env) None = "tokA" ∧
  getPageAccessToken (config (∅ : gmap string string)) (Some "222") = "".
Proof.
  split_and!.
  - destruct (page_token_lookup Sample.env (Some "222")) as (Hfound & _ & _).
    destruct (Hfound "222" eq_refl) as (p & Hfind & _ & _ & ->).
    + exists (Page.mk "222" "Beta" "tokB" None). split; [|done].
      apply list_elem_of_In. vm_compute. auto.
    + vm_compute in Hfind. by injection Hfind as <-.
  - destruct (page_token_lookup Sample.env (Some "999")) as (_ & Hmiss & _).
    assert (¬ ∃ p, p ∈ pages (config Sample.env) ∧ Page.id p = "999") as Hno.
    { intros (p & Hin & Hid). apply list_elem_of_In in Hin. vm_compute in Hin.
      destruct Hin as [<-|[<-|[]]]; discriminate Hid. }
    by apply (Hmiss (or_intror (ex_intro _ "999" (conj eq_refl Hno)))
                    (Page.mk "111" "Acme" "tokA" (Some "acme"))
                    [Page.mk "222" "Beta" "tokB" None]); vm_compute.
  - destruct (page_token_lookup Sample.env None) as (_ & Hmiss & _).
    by apply (Hmiss (or_introl eq_refl)
                    (Page.mk "111" "Acme" "tokA" (Some "acme"))
                    [Page.mk "222" "Beta" "tokB" None]); vm_compute.
  - destruct (page_token_lookup ∅ (Some "222")) as (_ & _ & Hnone).
    by apply Hnone; vm_compute.
Defined.

(** ** Mentions and records *)

Section MentionFacts.

Variable cfg : Config.
Variable axios_get : list Event → string → list (string * JValue) → Result JValue.

Lemma username_loop_hit_inv (text : JValue) (usernames : list string) (u : string) :
  mentionedUsername_loop text usernames = Ok u →
  u ≠ "" →
  u ∈ usernames ∧ Js.includes text ("@" +:+ u) = Ok true.
Proof.
  induction usernames as [|v rest IH]; intros Hloop Hu.
  - injection Hloop as <-. done.
  - cbn [mentionedUsername_loop] in Hloop.
    destruct (Js.includes text ("@" +:+ v)) as [[|]|] eqn:E; [| |done].
    + injection Hloop as <-. split; [left | done].
    + rewrite rbind_ok in Hloop. destruct (IH Hloop Hu). split; [by right | done].
Qed.

Lemma find_no_needle (text : string) (usernames : list string) :
  (∀ u, u ∈ usernames → ¬ Str.is_substring ("@" +:+ u) text) →
  List.find (λ u, Str.includes ("@" +:+ u) text) usernames = None.
Proof.
  induction usernames as [|u rest IH]; intros Hno; [done|].
  cbn [List.find].
  assert (Str.includes ("@" +:+ u) text = false) as ->.
  { apply includes_false, Hno. left. }
  apply IH. intros v Hv. apply Hno. by right.
Qed.

Lemma username_needle (u : string) :
  u ∈ businessIgUsernames cfg → "@" +:+ u ∈ username_needles cfg.
Proof. intros Hu. unfold username_needles. by apply list_elem_of_fmap_2. Qed.

Lemma page_needle_name (p : Page.t) :
  p ∈ pages cfg → "@" +:+ Page.name p ∈ page_needles cfg.
Proof.
  intros Hp. unfold page_needles. apply list_elem_of_In, in_flat_map.
  exists p. split; [by apply list_elem_of_In | left; done].
Qed.

Lemma page_needle_id (p : Page.t) :
  p ∈ pages cfg → "@[" +:+ Page.id p +:+ "]" ∈ page_needles cfg.
Proof.
  intros Hp. unfold page_needles. apply list_elem_of_In, in_flat_map.
  exists p. split; [by apply list_elem_of_In | right; left; done].
Qed.

Lemma includes_str_substring (text needle : string) :
  Js.includes (JStr text) needle = Ok true → Str.is_substring needle text.
Proof. cbn. intros [= H]. by apply includes_spec. Qed.

(** A Facebook detection found a username needle or a page needle. *)
Lemma fb_detect_needle (change : JValue) (d : Detected) :
  fb_detect cfg change = Ok (Some d) →
  ∃ needle, needle ∈ username_needles cfg ++ page_needles cfg ∧
            Js.includes (det_commentText d) needle = Ok true.
Proof.
  intros Hd.
  apply fb_detect_inv in Hd
    as (message & byUsername & _ & _ & _ & _ & _ & _ & Hloop & Hcase).
  destruct Hcase as [(Hne & _ & _)|(_ & Hpages & Hne)].
  - destruct (username_loop_hit_inv _ _ _ Hloop Hne) as [Hin Hhit].
    exists ("@" +:+ byUsername). split; [|done].
    apply elem_of_app. left. by apply username_needle.
  - destruct (page_loop_found _ _ _ _ Hpages Hne) as (page & Hin & Hhit & _).
    destruct (page_mentioned_needle _ _ Hhit) as [H|H];
      eexists; (split; [|exact H]); apply elem_of_app; right.
    + by apply page_needle_name.
    + by apply page_needle_id.
Qed.

Lemma ig_detect_needle (change : JValue) (d : Detected) :
  ig_detect cfg change = Ok (Some d) →
  ∃ needle, needle ∈ username_needles cfg ∧
            Js.includes (det_commentText d) needle = Ok true.
Proof.
  intros Hd.
  apply ig_detect_inv in Hd as (message & _ & _ & _ & _ & _ & Hloop & Hne).
  destruct (username_loop_hit_inv _ _ _ Hloop Hne) as [Hin Hhit].
  exists ("@" +:+ det_username d). split; [|done].
  by apply username_needle.
Qed.

Lemma fb_detect_no_needle (change value message : JValue) (text : string) :
  Js.get change "field" = Ok (JStr "feed") →
  Js.get change "value" = Ok value →
  Js.truthy value = true →
  Js.get value "item" = Ok (JStr "comment") →
  Js.get value "message" = Ok message →
  Js.or message (JStr "") = JStr text →
  (∀ needle, needle ∈ username_needles cfg ++ page_needles cfg →
             ¬ Str.is_substring needle text) →
  fb_detect cfg change = Ok None.
Proof.
  intros Hf Hv Ht Hi Hm Htext Hno.
  rewrite (fb_detect_comment cfg change value message text) by done.
  rewrite find_no_needle; cbn.
  - rewrite page_loop_miss; [done|].
    apply Forall_forall. intros p Hp. rewrite page_mentioned_str.
    assert (Str.includes ("@" +:+ Page.name p) text = false) as ->.
    { apply includes_false, Hno, elem_of_app. right. by apply page_needle_name. }
    assert (Str.includes ("@[" +:+ Page.id p +:+ "]") text = false) as ->; [|done].
    apply includes_false, Hno, elem_of_app. right. by apply page_needle_id.
  - intros u Hu. apply Hno, elem_of_app. left. by apply username_needle.
Qed.

Lemma ig_detect_no_needle (change value message : JValue) (text : string) :
  Js.get change "field" = Ok (JStr "comments") →
  Js.get change "value" = Ok value →
  Js.truthy value = true →
  Js.get value "text" = Ok message →
  Js.or message (JStr "") = JStr text →
  (∀ needle, needle ∈ username_needles cfg → ¬ Str.is_substring needle text) →
  ig_detect cfg change = Ok None.
Proof.
  intros Hf Hv Ht Hm Htext Hno.
  rewrite (ig_detect_comment cfg change value message text) by done.
  rewrite find_no_needle; [done|].
  intros u Hu. by apply Hno, username_needle.
Qed.

Lemma network_is_not_mail (evs : list Event) :
  Forall (λ e, is_network e = true) evs → Forall (λ e, is_mail e = false) evs.
Proof. intros H. eapply Forall_impl; [exact H | by intros []]. Qed.

Lemma network_is_not_response (evs : list Event) :
  Forall (λ e, is_network e = true) evs → Forall (λ e, is_response e = false) evs.
Proof. intros H. eapply Forall_impl; [exact H | by intros []]. Qed.

End MentionFacts.

(** C1.  Whatever the configuration, the network and the entry:
    - a record is built by [processFacebookWebhook] only when the comment
      text includes [@username] of a configured username, or [@PageName] or
      [@[pageId]] of a configured page, and by [processInstagramWebhook]
      only when it includes [@username] of a configured username; when the
      comment text is a string, as the payload types have it, that literal
      is a substring of the text;
    - an entry whose first change has another field or item type, and a
      comment whose text contains none of those literals, give [null]
      without any event;
    - whenever the result is [null] no event was emitted, and no run of an
      extractor sends mail. *)
Theorem record_only_for_literal_mention
    (cfg : Config)
    (axios_get : list Event → string → list (string * JValue) → Result JValue)
    (entry : JValue) (past : list Event) :
  let fb := processFacebookWebhook cfg axios_get entry past in
  let ig := processInstagramWebhook cfg axios_get entry past in
  (∀ r,
     outcome fb = Ok (Some r) →
     ∃ needle, needle ∈ username_needles cfg ++ page_needles cfg ∧
               Js.includes (commentText r) needle = Ok true ∧
               ∀ text, commentText r = JStr text → Str.is_substring needle text) ∧
  (∀ r,
     outcome ig = Ok (Some r) →
     ∃ needle, needle ∈ username_needles cfg ∧
               Js.includes (commentText r) needle = Ok true ∧
               ∀ text, commentText r = JStr text → Str.is_substring needle text) ∧
  (fb_irrelevant entry → fb = (Ok None, [])) ∧
  (ig_irrelevant entry → ig = (Ok None, [])) ∧
  (∀ text,
     fb_comment_text entry text →
     (∀ needle, needle ∈ username_needles cfg ++ page_needles cfg →
                ¬ Str.is_substring needle text) →
     fb = (Ok None, [])) ∧
  (∀ text,
     ig_comment_text entry text →
     (∀ needle, needle ∈ username_needles cfg → ¬ Str.is_substring needle text) →
     ig = (Ok None, [])) ∧
  (outcome fb = Ok None → events fb = []) ∧
  (outcome ig = Ok None → events ig = []) ∧
  Forall (λ e, is_mail e = false) (events fb ++ events ig).
Proof.
  intros fb ig.
  pose proof (processFacebookWebhook_cases cfg axios_get entry past) as Hfb.
  pose proof (processInstagramWebhook_cases cfg axios_get entry past) as Hig.
  fold fb in Hfb. fold ig in Hig. split_and!.
  - intros r Hr.
    destruct Hfb as [Hnone|(change & d & r' & ev & _ & Hd & Hrun & Hct & _)].
    { rewrite Hnone in Hr. discriminate Hr. }
    rewrite Hrun in Hr. injection Hr as ->.
    destruct (fb_detect_needle cfg change d Hd) as (needle & Hin & Hhit).
    rewrite <- Hct in Hhit. exists needle. split_and!; [done..|].
    intros text Htext. rewrite Htext in Hhit. by apply includes_str_substring.
  - intros r Hr.
    destruct Hig as [Hnone|(change & d & r' & ev & _ & Hd & Hrun & Hct & _)].
    { rewrite Hnone in Hr. discriminate Hr. }
    rewrite Hrun in Hr. injection Hr as ->.
    destruct (ig_detect_needle cfg change d Hd) as (needle & Hin & Hhit).
    rewrite <- Hct in Hhit. exists needle. split_and!; [done..|].
    intros text Htext. rewrite Htext in Hhit. by apply includes_str_substring.
  - intros (change & Hc & Hwhy). unfold fb.
    rewrite processFacebookWebhook_run, Hc.
    destruct Hwhy as [(field & Hf & Hne)|(value & item & Hv & Hi & Hne)].
    + by rewrite (fb_detect_irrelevant cfg change field).
    + by rewrite (fb_detect_not_comment cfg change value item).
  - intros (change & field & Hc & Hf & Hne). unfold ig.
    rewrite processInstagramWebhook_run, Hc.
    by rewrite (ig_detect_irrelevant cfg change field).
  - intros text (change & value & message & Hc & Hf & Hv & Ht & Hi & Hm & Htext) Hno.
    unfold fb. rewrite processFacebookWebhook_run, Hc.
    by rewrite (fb_detect_no_needle cfg change value message text).
  - intros text (change & value & message & Hc & Hf & Hv & Ht & Hm & Htext) Hno.
    unfold ig. rewrite processInstagramWebhook_run, Hc.
    by rewrite (ig_detect_no_needle cfg change value message text).
  - intros Hr. destruct Hfb as [->|(change & d & r' & ev & _ & _ & Hrun & _)]; [done|].
    rewrite Hrun in Hr. discriminate Hr.
  - intros Hr. destruct Hig as [->|(change & d & r' & ev & _ & _ & Hrun & _)]; [done|].
    rewrite Hrun in Hr. discriminate Hr.
  - apply Forall_app. split.
    + destruct Hfb as [->|(change & d & r' & ev & _ & _ & -> & _ & _ & Hev)];
        [done | by apply network_is_not_mail].
    + destruct Hig as [->|(change & d & r' & ev & _ & _ & -> & _ & _ & Hev)];
        [done | by apply network_is_not_mail].
Qed.

Lemma record_only_for_literal_mention_witness :
  (∃ needle,
     needle ∈ username_needles (config Sample.env) ++ page_needles (config Sample.env) ∧
     Str.is_substring needle "Great shot, @acme!") ∧
  processFacebookWebhook (config Sample.env) Sample.online
    (Sample.entry_of [Sample.fb_change "Nice picture"]) [] = (Ok None, []) ∧
  processFacebookWebhook (config Sample.env) Sample.online
    (Sample.entry_of [Sample.ig_change "Great shot, @acme!"]) [] = (Ok None, []).
Proof.
  split_and!.
  - destruct (record_only_for_literal_mention (config Sample.env) Sample.online
                (Sample.entry_of [Sample.fb_change "Great shot, @acme!"]) [])
      as (Hfb & _).
    edestruct Hfb as (needle & Hin & _ & Hsub); [by vm_compute|].
    exists needle. split; [done|]. by apply Hsub.
  - destruct (record_only_for_literal_mention (config Sample.env) Sample.online
                (Sample.entry_of [Sample.fb_change "Nice picture"]) [])
      as (_ & _ & _ & _ & Hfb & _).
    apply (Hfb "Nice picture").
    + by eexists _, _, _; split_and!; vm_compute.
    + intros needle Hin. apply includes_false.
      apply list_elem_of_In in Hin. vm_compute in Hin.
      repeat (destruct Hin as [<-|Hin]; [by vm_compute|]). destruct Hin.
  - destruct (record_only_for_literal_mention (config Sample.env) Sample.online
                (Sample.entry_of [Sample.ig_change "Great shot, @acme!"]) [])
      as (_ & _ & Hfb & _).
    apply Hfb. eexists. split; [by vm_compute|].
    left. eexists. split; [by vm_compute | done].
Defined.

(** ** First match *)

Lemma find_split {A} (P : A → bool) (l : list A) (x : A) :
  x ∈ l → P x = true →
  ∃ before first after,
    l = before ++ first :: after ∧
    P first = true ∧
    Forall (λ v, P v = false) before ∧
    List.find P l = Some first.
Proof.
  induction l as [|y rest IH]; intros Hin Hx.
  - by apply elem_of_nil in Hin.
  - destruct (P y) eqn:Hy.
    + exists [], y, rest. cbn. by rewrite Hy.
    + apply elem_of_cons in Hin as [->|Hin]; [congruence|].
      destruct (IH Hin Hx) as (before & first & after & -> & Hfirst & Hbefore & Hfind).
      exists (y :: before), first, after. cbn. rewrite Hy.
      split_and!; try done. by constructor.
Qed.

Section FirstMatch.

Variable cfg : Config.
Variable axios_get : list Event → string → list (string * JValue) → Result JValue.
Hypothesis cfg_ok : config_ok cfg.

Variables (entry : JValue) (text first : string) (past : list Event).
Hypothesis first_found :
  List.find (λ u, Str.includes ("@" +:+ u) text) (businessIgUsernames cfg) = Some first.

Lemma first_found_nonempty : Str.nonempty first = true.
Proof.
  apply find_some in first_found as [Hin _]. apply list_elem_of_In in Hin.
  pose proof (usernames_filled _ cfg_ok) as Hall. rewrite Forall_forall in Hall.
  by apply nonempty_spec, Hall.
Qed.

Lemma fb_selects_first :
  fb_logged_comment entry text →
  ∃ r ev, processFacebookWebhook cfg axios_get entry past = (Ok (Some r), ev) ∧
          mentionedUsername r = first.
Proof.
  intros (change & value & message & comment_id & logged &
          Hc & Hf & Hv & Ht & Hi & Hm & Htext & Hid & Hlogged).
  destruct (processFacebookWebhook_detected cfg axios_get entry change
              {| det_commentData := value; det_commentText := JStr text;
                 det_pageId := ""; det_username := first |}
              comment_id logged past) as (r & ev & Hrun & _ & Huser & _);
    [done | | done | done | by exists r, ev].
  rewrite (fb_detect_comment cfg change value message text) by done.
  rewrite first_found. change (default "" (Some first)) with first. cbv zeta.
  rewrite first_found_nonempty, rbind_ok. cbv beta iota.
  by rewrite first_found_nonempty.
Qed.

Lemma ig_selects_first :
  ig_logged_comment entry text →
  ∃ r ev, processInstagramWebhook cfg axios_get entry past = (Ok (Some r), ev) ∧
          mentionedUsername r = first.
Proof.
  intros (change & value & message & id & logged &
          Hc & Hf & Hv & Ht & Hm & Htext & Hid & Hlogged).
  destruct (processInstagramWebhook_detected cfg axios_get entry change
              {| det_commentData := value; det_commentText := JStr text;
                 det_pageId := ""; det_username := first |}
              id logged past) as (r & ev & Hrun & _ & Huser & _);
    [done | | done | done | by exists r, ev].
  rewrite (ig_detect_comment cfg change value message text) by done.
  rewrite first_found. change (default "" (Some first)) with first. cbv zeta.
  by rewrite first_found_nonempty.
Qed.

End FirstMatch.

(** C5.  On the configuration built at startup: when the text of a comment
    contains [@u] for some configured username [u], the configured list
    splits around a username [first] that the text mentions and before which
    no username is mentioned; the loop returns [first] whatever follows it
    in the list; and on a comment event with that text (whose id can be
    logged) both extractors build a record whose [mentionedUsername] is
    [first]. *)
Theorem first_configured_username_wins
    (env : gmap string string)
    (axios_get : list Event → string → list (string * JValue) → Result JValue)
    (entry : JValue) (text u : string) (past : list Event) :
  let cfg := config env in
  u ∈ businessIgUsernames cfg →
  Str.is_substring ("@" +:+ u) text →
  ∃ before first after,
    businessIgUsernames cfg = before ++ first :: after ∧
    Str.is_substring ("@" +:+ first) text ∧
    Forall (λ v, ¬ Str.is_substring ("@" +:+ v) text) before ∧
    (∀ others,
       mentionedUsername_loop (JStr text) (before ++ first :: others) = Ok first) ∧
    (fb_logged_comment entry text →
     ∃ r ev, processFacebookWebhook cfg axios_get entry past = (Ok (Some r), ev) ∧
             mentionedUsername r = first) ∧
    (ig_logged_comment entry text →
     ∃ r ev, processInstagramWebhook cfg axios_get entry past = (Ok (Some r), ev) ∧
             mentionedUsername r = first).
Proof.
  intros cfg Hu Hsub.
  destruct (find_split (λ u, Str.includes ("@" +:+ u) text) (businessIgUsernames cfg) u)
    as (before & first & after & Hsplit & Hfirst & Hbefore & Hfind);
    [done | by apply includes_spec |].
  exists before, first, after. split_and!.
  - done.
  - by apply includes_spec.
  - eapply Forall_impl; [exact Hbefore|]. intros v Hv. by apply includes_false.
  - intros others. apply username_loop_hit.
    + eapply Forall_impl; [exact Hbefore|]. intros v Hv. cbn. by rewrite Hv.
    + cbn. by rewrite Hfirst.
  - by apply fb_selects_first; [apply config_is_ok|].
  - by apply ig_selects_first; [apply config_is_ok|].
Qed.

Lemma first_configured_username_wins_witness :
  ∃ r ev,
    processInstagramWebhook (config Sample.env) Sample.online
      (Sample.entry_of [Sample.ig_change "thanks @acme and @beta"]) [] =
      (Ok (Some r), ev) ∧
    mentionedUsername r = "beta".
Proof.
  destruct (first_configured_username_wins Sample.env Sample.online
              (Sample.entry_of [Sample.ig_change "thanks @acme and @beta"])
              "thanks @acme and @beta" "acme" [])
    as (before & first & after & Hsplit & _ & _ & _ & _ & Hig).
  - apply list_elem_of_In. vm_compute. auto.
  - apply includes_spec. by vm_compute.
  - destruct Hig as (r & ev & Hrun & Hfirst).
    + by eexists _, _, _, _, _; split_and!; vm_compute.
    + exists r, ev. split; [done|].
      vm_compute in Hrun. injection Hrun as <- _. reflexivity.
Defined.

(** ** Later changes *)

Section LaterChanges.

Variable cfg : Config.
Variable axios_get : list Event → string → list (string * JValue) → Result JValue.

(** Past detection, an entry is only read for its [time]. *)
Lemma fb_build_time (entry1 entry2 : JValue) (d : Detected) (past : list Event) :
  Js.get entry1 "time" = Js.get entry2 "time" →
  fb_build cfg axios_get entry1 d past = fb_build cfg axios_get entry2 d past.
Proof.
  intros Htime. unfold fb_build. norm.
  destruct (Js.get (det_commentData d) "comment_id") as [comment_id|]; [|done]. norm.
  destruct (Js.toString comment_id); [|done]. norm.
  destruct (Js.get (det_commentData d) "from"); [|done]. norm.
  destruct (Js.get (det_commentData d) "post_id") as [post_id|]; [|done]. norm.
  rewrite !bind_run.
  destruct (fb_fetch cfg axios_get post_id d past) as [[[content url]|] ev]; [|done].
  norm. by rewrite Htime.
Qed.

Lemma ig_build_time (entry1 entry2 : JValue) (d : Detected) (past : list Event) :
  Js.get entry1 "time" = Js.get entry2 "time" →
  ig_build cfg axios_get entry1 d past = ig_build cfg axios_get entry2 d past.
Proof.
  intros Htime. unfold ig_build. norm.
  destruct (Js.get (det_commentData d) "id") as [id|]; [|done]. norm.
  destruct (Js.toString id); [|done]. norm.
  destruct (Js.get (det_commentData d) "media") as [media|]; [|done]. norm.
  rewrite !bind_run.
  destruct (ig_fetch_media cfg axios_get (Js.get_opt media "id") d past)
    as [[[content url]|] ev]; [|done].
  norm. destruct (Js.get (det_commentData d) "from") as [from|]; [|done]. norm.
  rewrite !bind_run.
  destruct (ig_fetch_tagger cfg axios_get from d (past ++ ev))
    as [[[username picture]|] ev']; [|done].
  norm. by rewrite Htime.
Qed.

End LaterChanges.

(** C6.  Of an entry whose [changes] array has a first element and more,
    the extractors read the first element only: two entries with the same
    [time] and the same first change give the same result and the same
    events, whatever follows the first change; in particular an entry whose
    first change yields no record yields none when further changes, which
    may mention a configured account, are added after it. *)
Theorem only_first_change_is_examined
    (cfg : Config)
    (axios_get : list Event → string → list (string * JValue) → Result JValue)
    (entry1 entry2 first : JValue) (rest1 rest2 : list JValue) (past : list Event) :
  Js.get entry1 "changes" = Ok (JArr (first :: rest1)) →
  Js.get entry2 "changes" = Ok (JArr (first :: rest2)) →
  Js.get entry1 "time" = Js.get entry2 "time" →
  processFacebookWebhook cfg axios_get entry1 past =
    processFacebookWebhook cfg axios_get entry2 past ∧
  processInstagramWebhook cfg axios_get entry1 past =
    processInstagramWebhook cfg axios_get entry2 past ∧
  (outcome (processFacebookWebhook cfg axios_get entry1 past) = Ok None →
   outcome (processFacebookWebhook cfg axios_get entry2 past) = Ok None) ∧
  (outcome (processInstagramWebhook cfg axios_get entry1 past) = Ok None →
   outcome (processInstagramWebhook cfg axios_get entry2 past) = Ok None).
Proof.
  intros H1 H2 Htime.
  assert (processFacebookWebhook cfg axios_get entry1 past =
          processFacebookWebhook cfg axios_get entry2 past) as Hfb.
  { rewrite !processFacebookWebhook_run.
    rewrite (first_change_array _ _ _ H1), (first_change_array _ _ _ H2).
    destruct (fb_detect cfg first) as [[d|]|]; [|done..].
    unfold try_catch. by rewrite (fb_build_time cfg axios_get entry1 entry2). }
  assert (processInstagramWebhook cfg axios_get entry1 past =
          processInstagramWebhook cfg axios_get entry2 past) as Hig.
  { rewrite !processInstagramWebhook_run.
    rewrite (first_change_array _ _ _ H1), (first_change_array _ _ _ H2).
    destruct (ig_detect cfg first) as [[d|]|]; [|done..].
    unfold try_catch. by rewrite (ig_build_time cfg axios_get entry1 entry2). }
  split_and!; [done | done | by rewrite Hfb | by rewrite Hig].
Qed.

Lemma only_first_change_is_examined_witness :
  outcome (processFacebookWebhook (config Sample.env) Sample.online
             (Sample.entry_of [Sample.fb_change "Nice picture";
                               Sample.fb_change "Great shot, @acme!"]) []) = Ok None.
Proof.
  destruct (only_first_change_is_examined (config Sample.env) Sample.online
              (Sample.entry_of [Sample.fb_change "Nice picture"])
              (Sample.entry_of [Sample.fb_change "Nice picture";
                                Sample.fb_change "Great shot, @acme!"])
              (Sample.fb_change "Nice picture") [] [Sample.fb_change "Great shot, @acme!"]
              [])
    as (_ & _ & Hnone & _); [reflexivity..|].
  apply Hnone. by vm_compute.
Defined.

(** C9.  Both extractors are total and end normally on every JSON value
    passed as the entry, with a record or with [null]; whenever the [try]
    block throws, the result is [null] and the events are those emitted up
    to the throw. *)
Theorem extractors_never_throw
    (cfg : Config)
    (axios_get : list Event → string → list (string * JValue) → Result JValue)
    (entry : JValue) (past : list Event) :
  (∃ res ev, processFacebookWebhook cfg axios_get entry past = (Ok res, ev)) ∧
  (∃ res ev, processInstagramWebhook cfg axios_get entry past = (Ok res, ev)) ∧
  (∀ e ev,
     processFacebookWebhook_body cfg axios_get entry past = (Throw e, ev) →
     processFacebookWebhook cfg axios_get entry past = (Ok None, ev)) ∧
  (∀ e ev,
     processInstagramWebhook_body cfg axios_get entry past = (Throw e, ev) →
     processInstagramWebhook cfg axios_get entry past = (Ok None, ev)).
Proof.
  split_and!.
  - destruct (processFacebookWebhook_cases cfg axios_get entry past)
      as [->|(change & d & r & ev & _ & _ & -> & _)]; eauto.
  - destruct (processInstagramWebhook_cases cfg axios_get entry past)
      as [->|(change & d & r & ev & _ & _ & -> & _)]; eauto.
  - intros e ev Hbody. by eapply try_catch_throw.
  - intros e ev Hbody. by eapply try_catch_throw.
Qed.

Lemma extractors_never_throw_witness :
  processFacebookWebhook_body (config Sample.env) Sample.online Sample.malformed_entry [] =
    (Throw (TypeError "includes is not a function"), []) ∧
  processFacebookWebhook (config Sample.env) Sample.online Sample.malformed_entry [] =
    (Ok None, []).
Proof.
  assert (processFacebookWebhook_body (config Sample.env) Sample.online
            Sample.malformed_entry [] =
          (Throw (TypeError "includes is not a function"), [])) as Hbody
    by (by vm_compute).
  split; [exact Hbody|].
  destruct (extractors_never_throw (config Sample.env) Sample.online
              Sample.malformed_entry []) as (_ & _ & Hcatch & _).
  exact (Hcatch _ _ Hbody).
Defined.

(** ** Events of composed computations *)

Section EventFacts.

Context {A B : Type}.




Variable P : Event → Prop.

Lemma emits_ret (a : A) : emits P (mret a).
Proof. intros past. constructor. Qed.

Lemma emits_lift (r : Result A) : emits P (lift r).
Proof. intros past. constructor. Qed.

Lemma emits_emit (e : Event) : P e → emits P (emit e).
Proof. intros He past. by repeat constructor. Qed.

Lemma emits_bind (m : M A) (k : A → M B) :
  emits P m → (∀ a, emits P (k a)) → emits P (m ≫= k).
Proof.
  intros Hm Hk past. rewrite bind_run.
  specialize (Hm past). destruct (m past) as [[a|e] ev]; cbn in *; [|done].
  apply Forall_app. split; [done | apply Hk].
Qed.

Lemma emits_try_catch (m : M A) (h : JsError → M A) :
  emits P m → (∀ e, emits P (h e)) → emits P (try_catch m h).
Proof.
  intros Hm Hh past. unfold try_catch.
  specialize (Hm past). destruct (m past) as [[a|e] ev]; cbn in *; [done|].
  specialize (Hh e (past ++ ev)). destruct (h e (past ++ ev)) as [r ev']; cbn in *.
  by apply Forall_app.
Qed.

End EventFacts.

Lemma emits_for_each {A} (P : Event → Prop) (xs : list A) (body : A → M unit) :
  (∀ x, emits P (body x)) → emits P (for_each xs body).
Proof.
  intros Hbody. induction xs as [|x rest IH]; cbn [for_each].
  - intros past. constructor.
  - apply emits_bind; [apply Hbody | by intros _].
Qed.

Lemma emits_http_get (P : Event → Prop) axios_get url params :
  P (HttpGet url params) → emits P (http_get axios_get url params).
Proof. intros He past. by repeat constructor. Qed.

Lemma emits_legacy_http_get (P : Event → Prop) axios_get url params :
  P (HttpGet url params) → emits P (Legacy.http_get axios_get url params).
Proof. intros He past. by repeat constructor. Qed.

Lemma emits_notify (P : Event → Prop) notifier mention :
  P (Notify mention) → emits P (sendAllNotifications notifier mention).
Proof. intros He past. by repeat constructor. Qed.

(** Walk through a computation, leaving the events it can emit as goals. *)
Ltac emits_with known :=
  repeat first
    [ known
    | apply emits_ret
    | apply emits_lift
    | apply emits_emit
    | apply emits_http_get
    | apply emits_legacy_http_get
    | apply emits_notify
    | apply emits_try_catch; [| intros ?]
    | apply emits_for_each; intros ?
    | apply emits_bind; [| intros ?]
    | match goal with
      | |- emits _ (if ?b then _ else _) => destruct b
      | |- emits _ (match ?x with Some _ => _ | None => _ end) => destruct x
      | |- emits _ (match ?x with inl _ => _ | inr _ => _ end) => destruct x
      | |- emits _ (let '(_, _) := ?p in _) => destruct p
      end ].

Ltac emits_tac := emits_with fail.


Section HandlerFacts.

Variable cfg : Config.
Variable axios_get : list Event → string → list (string * JValue) → Result JValue.
Variable notifier : list Event → MentionData → Result unit.

Lemma processFacebookWebhook_quiet (entry : JValue) :
  emits (λ e, is_response e = false) (processFacebookWebhook cfg axios_get entry).
Proof.
  intros past.
  destruct (processFacebookWebhook_cases cfg axios_get entry past)
    as [->|(change & d & r & ev & _ & _ & -> & _ & _ & Hev)]; [constructor|].
  by apply network_is_not_response.
Qed.

Lemma processInstagramWebhook_quiet (entry : JValue) :
  emits (λ e, is_response e = false) (processInstagramWebhook cfg axios_get entry).
Proof.
  intros past.
  destruct (processInstagramWebhook_cases cfg axios_get entry past)
    as [->|(change & d & r & ev & _ & _ & -> & _ & _ & Hev)]; [constructor|].
  by apply network_is_not_response.
Qed.

(** [processWebhook] acknowledges first and never answers twice. *)
Lemma processWebhook_ack_first (req : Request) (past : list Event) :
  ∃ rest,
    processWebhook cfg axios_get notifier req past = (Ok tt, ack :: rest) ∧
    Forall (λ e, is_response e = false) rest.
Proof.
  unfold processWebhook.
  set (after :=
    object ← lift (Js.get (body req) "object");
    if Js.is_str object "page" || Js.is_str object "instagram" then
      entry ← lift (Js.get (body req) "entry");
      entries ← lift (Js.iterate entry);
      for_each entries (λ entry,
        mentionData ← (
          if Js.is_str object "page" then processFacebookWebhook cfg axios_get entry
          else if Js.is_str object "instagram"
               then processInstagramWebhook cfg axios_get entry
               else mret None);
        match mentionData with
        | Some mention => sendAllNotifications notifier mention
        | None => mret tt
        end)
    else mret tt).
  assert (emits (λ e, is_response e = false) after) as Hafter.
  { unfold after.
    emits_with ltac:(first [ apply processFacebookWebhook_quiet
                           | apply processInstagramWebhook_quiet ]); done. }
  specialize (Hafter (past ++ [ack])).
  exists (events (after (past ++ [ack]))). split; [|done].
  unfold try_catch. cbv zeta. rewrite bind_run. unfold emit at 1. cbv iota. fold ack.
  destruct (after (past ++ [ack])) as [[[]|e] ev]; cbn; [done|].
  by rewrite app_nil_r.
Qed.

End HandlerFacts.

(** ** The stand-alone server *)

Lemma for_each_total {A} (xs : list A) (body : A → M unit) :
  (∀ x past, ∃ ev, body x past = (Ok tt, ev)) →
  ∀ past, ∃ ev, for_each xs body past = (Ok tt, ev).
Proof.
  intros Hbody. induction xs as [|x rest IH]; intros past; cbn [for_each].
  - by exists [].
  - rewrite bind_run. destruct (Hbody x past) as [ev ->].
    destruct (IH (past ++ ev)) as [ev' ->]. by eexists.
Qed.

Lemma try_catch_unit_total (m : M unit) (past : list Event) :
  ∃ ev, try_catch m (λ _, mret tt) past = (Ok tt, ev).
Proof.
  unfold try_catch. destruct (m past) as [[[]|e] ev]; cbn; eauto.
Qed.

Section LegacyFacts.

Variable facebookPages : list (string * Legacy.PageInfo).
Variable instagramAccounts : list (string * Legacy.Account).
Variable axios_get : list Event → string → list (string * JValue) → Result JValue.
Variable now : string.


Lemma handleMention_quiet (data : JValue) (platform : string) :
  emits (λ e, is_response e = false)
        (Legacy.handleMention facebookPages instagramAccounts axios_get now data platform).
Proof. unfold Legacy.handleMention. emits_tac; done. Qed.

Lemma handleComment_quiet (data : JValue) :
  emits (λ e, is_response e = false)
        (Legacy.handleComment instagramAccounts axios_get now data).
Proof. unfold Legacy.handleComment. emits_tac; done. Qed.

Lemma dispatch_change_quiet (change : JValue) :
  emits (λ e, is_response e = false)
        (Legacy.dispatch_change facebookPages instagramAccounts axios_get now change).
Proof.
  unfold Legacy.dispatch_change.
  emits_with ltac:(first [ apply handleMention_quiet | apply handleComment_quiet ]).
Qed.

(** In [app.post('/webhook')] the response comes last: everything the
    entries cause is emitted before it. *)
Lemma post_webhook_shape (body : JValue) (past : list Event) :
  ∃ work tail,
    events (Legacy.post_webhook facebookPages instagramAccounts axios_get now body past) =
      work ++ tail ∧
    Forall (λ e, is_response e = false) work ∧
    (tail = [] ∨ tail = [ack] ∨ tail = [RespondStatus 404]).
Proof.
  unfold Legacy.post_webhook. norm.
  destruct (Js.get body "object") as [object|]; [|by exists [], []; auto].
  destruct (Js.is_str object "page" || Js.is_str object "instagram");
    [|by exists [], [RespondStatus 404]; auto].
  norm. destruct (Js.get body "entry") as [entry|]; [|by exists [], []; auto].
  norm. destruct (Js.iterate entry) as [entries|]; [|by exists [], []; auto].
  rewrite bind_run.
  match goal with
  | |- context [for_each entries ?f past] => set (body_of := f)
  end.
  assert (emits (λ e, is_response e = false) (for_each entries body_of)) as Hquiet.
  { unfold body_of. emits_with ltac:(apply dispatch_change_quiet). }
  destruct (for_each_total entries body_of) with (past := past) as [work Hrun].
  { intros x p. apply try_catch_unit_total. }
  specialize (Hquiet past). rewrite Hrun in *. cbn in *.
  exists work, [ack]. auto.
Qed.

End LegacyFacts.

(** ** The revised stand-alone server *)

Section LegacyRevisedFacts.

Variable facebookPages : list (string * Legacy.PageInfo).
Variable instagramAccounts : list (string * Legacy.Account).
Variable axios_get : list Event → string → list (string * JValue) → Result JValue.
Variable now : string.

Lemma revised_handleMention_quiet (data : JValue) (platform : string) :
  emits (λ e, is_response e = false)
        (LegacyRevised.handleMention facebookPages instagramAccounts axios_get now
           data platform).
Proof. unfold LegacyRevised.handleMention. cbv zeta. emits_tac; done. Qed.

Lemma revised_handleComment_quiet (data : JValue) :
  emits (λ e, is_response e = false)
        (LegacyRevised.handleComment instagramAccounts axios_get now data).
Proof. unfold LegacyRevised.handleComment. cbv zeta. emits_tac; done. Qed.

Lemma revised_dispatch_change_quiet (change : JValue) :
  emits (λ e, is_response e = false)
        (LegacyRevised.dispatch_change facebookPages instagramAccounts axios_get now
           change).
Proof.
  unfold LegacyRevised.dispatch_change.
  emits_with ltac:(first [ apply revised_handleMention_quiet
                         | apply revised_handleComment_quiet ]).
Qed.

(** The revised handler answers exactly once, and last. *)
Lemma revised_post_webhook_shape (body : JValue) (past : list Event) :
  ∃ work tail,
    LegacyRevised.post_webhook facebookPages instagramAccounts axios_get now body past =
      (Ok tt, work ++ [tail]) ∧
    Forall (λ e, is_response e = false) work ∧
    (tail = ack ∨ tail = RespondStatus 404 ∨
     tail = Respond 500 (JStr "Error processing webhook")).
Proof.
  unfold LegacyRevised.post_webhook. unfold try_catch at 1. norm.
  destruct (Js.get body "object") as [object|];
    [|by exists [], (Respond 500 (JStr "Error processing webhook")); cbn; auto].
  destruct (Js.is_str object "page" || Js.is_str object "instagram");
    [|by exists [], (RespondStatus 404); cbn; auto].
  norm. destruct (Js.get body "entry") as [entry|];
    [|by exists [], (Respond 500 (JStr "Error processing webhook")); cbn; auto].
  norm. destruct (Js.iterate (Js.or entry (JArr []))) as [entries|];
    [|by exists [], (Respond 500 (JStr "Error processing webhook")); cbn; auto].
  rewrite bind_run.
  match goal with
  | |- context [for_each entries ?f past] => set (body_of := f)
  end.
  assert (emits (λ e, is_response e = false) (for_each entries body_of)) as Hquiet.
  { unfold body_of. emits_with ltac:(apply revised_dispatch_change_quiet). }
  destruct (for_each_total entries body_of) with (past := past) as [work Hrun].
  { intros x p. apply try_catch_unit_total. }
  specialize (Hquiet past). rewrite Hrun in *. cbn in *.
  exists work, ack. auto.
Qed.

End LegacyRevisedFacts.

(** ** The handshake *)

(** C2, as stated, fails: a request that carries both parameters, with an
    empty [hub.mode], is answered 400 and not 403. *)
Lemma handshake_by_presence_fails :
  ¬ handshake_by_presence
      (λ query, events (verifyWebhook (config Sample.env)
                          {| query := query; body := JUndefined |} []))
      "s3cret"
      [("hub.mode", JStr ""); ("hub.verify_token", JStr "s3cret");
       ("hub.challenge", JStr "1158201444")].
Proof.
  intros (_ & Hforbidden & _). cbn in Hforbidden.
  assert ([RespondStatus 400] = [RespondStatus 403]) as Habs; [|discriminate Habs].
  apply Hforbidden; [by eexists | by eexists |]. by intros [[=] _].
Qed.

(** C2, amended.  For every GET /webhook request, in the controller and in
    the stand-alone server alike: if [hub.mode] and [hub.verify_token] are
    both present and non-empty, the response is 200 with the value of
    [hub.challenge] as body when the mode is ["subscribe"] and the token is
    the configured one, and 403 otherwise; if either is missing or empty the
    response is an error status, 400 from the controller and 404 from the
    stand-alone server, whose two copies answer alike. *)
Theorem handshake_on_nonempty_parameters
    (cfg : Config) (META_VERIFY_TOKEN : option string) (req : Request)
    (past : list Event) :
  let mode := Js.of_option (Js.assoc "hub.mode" (query req)) in
  let token := Js.of_option (Js.assoc "hub.verify_token" (query req)) in
  let challenge := Js.of_option (Js.assoc "hub.challenge" (query req)) in
  (Js.truthy mode = true → Js.truthy token = true →
   (mode = JStr "subscribe" ∧ token = JStr (verifyToken cfg) →
    verifyWebhook cfg req past = (Ok tt, [Respond 200 challenge])) ∧
   (¬ (mode = JStr "subscribe" ∧ token = JStr (verifyToken cfg)) →
    verifyWebhook cfg req past = (Ok tt, [RespondStatus 403])) ∧
   (mode = JStr "subscribe" ∧ Some token = JStr <$> META_VERIFY_TOKEN →
    Legacy.get_webhook META_VERIFY_TOKEN (query req) past =
      (Ok tt, [Respond 200 challenge])) ∧
   (¬ (mode = JStr "subscribe" ∧ Some token = JStr <$> META_VERIFY_TOKEN) →
    Legacy.get_webhook META_VERIFY_TOKEN (query req) past =
      (Ok tt, [RespondStatus 403]))) ∧
  (Js.truthy mode = false ∨ Js.truthy token = false →
   verifyWebhook cfg req past = (Ok tt, [RespondStatus 400]) ∧
   Legacy.get_webhook META_VERIFY_TOKEN (query req) past =
     (Ok tt, [RespondStatus 404])) ∧
  LegacyRevised.get_webhook META_VERIFY_TOKEN (query req) past =
    Legacy.get_webhook META_VERIFY_TOKEN (query req) past.
Proof.
  intros mode token challenge.
  unfold verifyWebhook, LegacyRevised.get_webhook, Legacy.get_webhook, try_catch.
  fold mode token challenge. split_and!; [| |done].
  - intros -> ->. cbn [andb]. split_and!.
    + intros [-> ->]. cbn. by rewrite String.eqb_refl.
    + intros Hwrong.
      destruct (Js.is_str mode "subscribe" && Js.is_str token (verifyToken cfg))
        eqn:E; [|done].
      destruct Hwrong. apply andb_true_iff in E as [Hm Ht].
      destruct mode as [| | | |m| |], token as [| | | |t| |]; try done.
      cbn in Hm, Ht. apply String.eqb_eq in Hm, Ht. by subst.
    + intros [-> Htoken]. destruct META_VERIFY_TOKEN as [expected|]; [|done].
      injection Htoken as ->. cbn. by rewrite String.eqb_refl.
    + intros Hwrong.
      destruct (Js.is_str mode "subscribe" &&
                match META_VERIFY_TOKEN with
                | Some expected => Js.is_str token expected
                | None => false
                end) eqn:E; [|done].
      destruct Hwrong. apply andb_true_iff in E as [Hm Ht].
      destruct META_VERIFY_TOKEN as [expected|]; [|done].
      destruct mode as [| | | |m| |], token as [| | | |t| |]; try done.
      cbn in Hm, Ht. apply String.eqb_eq in Hm, Ht. by subst.
  - intros Hmissing.
    assert (Js.truthy mode && Js.truthy token = false) as E.
    { apply andb_false_iff. tauto. }
    rewrite E. done.
Qed.

Lemma handshake_on_nonempty_parameters_witness :
  verifyWebhook (config Sample.env)
    {| query := [("hub.mode", JStr "subscribe"); ("hub.verify_token", JStr "s3cret");
                 ("hub.challenge", JStr "1158201444")];
       body := JUndefined |} [] =
    (Ok tt, [Respond 200 (JStr "1158201444")]) ∧
  verifyWebhook (config Sample.env)
    {| query := [("hub.mode", JStr "subscribe"); ("hub.verify_token", JStr "guess");
                 ("hub.challenge", JStr "1158201444")];
       body := JUndefined |} [] =
    (Ok tt, [RespondStatus 403]) ∧
  Legacy.get_webhook (Some "s3cret") [("hub.mode", JStr "subscribe")] [] =
    (Ok tt, [RespondStatus 404]).
Proof.
  split_and!.
  - destruct (handshake_on_nonempty_parameters (config Sample.env) None
                {| query := [("hub.mode", JStr "subscribe");
                             ("hub.verify_token", JStr "s3cret");
                             ("hub.challenge", JStr "1158201444")];
                   body := JUndefined |} []) as (Hpresent & _ & _).
    destruct Hpresent as (Hok & _); [reflexivity..|].
    apply Hok. by vm_compute.
  - destruct (handshake_on_nonempty_parameters (config Sample.env) None
                {| query := [("hub.mode", JStr "subscribe");
                             ("hub.verify_token", JStr "guess");
                             ("hub.challenge", JStr "1158201444")];
                   body := JUndefined |} []) as (Hpresent & _ & _).
    destruct Hpresent as (_ & Hforbidden & _); [reflexivity..|].
    apply Hforbidden. vm_compute. by intros [_ [=]].
  - destruct (handshake_on_nonempty_parameters (config Sample.env) (Some "s3cret")
                {| query := [("hub.mode", JStr "subscribe")]; body := JUndefined |} [])
      as (_ & Hmissing & _).
    apply Hmissing. by right.
Defined.

(** ** Acknowledgment and processing *)

(** C3, as stated, fails for the stand-alone server: a comment that mentions
    a monitored account is looked up and mailed before the acknowledgment
    leaves. *)
Lemma legacy_ack_is_not_first :
  ¬ ack_first
      (events (Legacy.post_webhook Sample.legacy_pages Sample.accounts Sample.offline
                 "2024-01-01T00:00:00.000Z"
                 (Sample.payload "instagram"
                    [JObj [("changes", JArr [Sample.legacy_comment "hello @acme"])]])
                 [])).
Proof. intros [rest Hrest]. vm_compute in Hrest. discriminate Hrest. Qed.

(** C3, amended.  In the controller ([processWebhook]) the acknowledgment
    200 "EVENT_RECEIVED" is the first event of every POST, whatever the
    body, and no other response follows it: every request to the Graph API
    and every notification comes after it.  In the stand-alone server
    ([app.post('/webhook')], in both copies) the response is the last event:
    every request and every mail caused by the entries comes before it. *)
Theorem acknowledgment_order
    (cfg : Config)
    (axios_get : list Event → string → list (string * JValue) → Result JValue)
    (notifier : list Event → MentionData → Result unit)
    (facebookPages : list (string * Legacy.PageInfo))
    (instagramAccounts : list (string * Legacy.Account))
    (now : string) (req : Request) (past : list Event) :
  (∃ rest,
     processWebhook cfg axios_get notifier req past = (Ok tt, ack :: rest) ∧
     Forall (λ e, is_response e = false) rest) ∧
  (∃ work tail,
     events (Legacy.post_webhook facebookPages instagramAccounts axios_get now
               (body req) past) = work ++ tail ∧
     Forall (λ e, is_response e = false) work ∧
     (tail = [] ∨ tail = [ack] ∨ tail = [RespondStatus 404])) ∧
  (∃ work tail,
     LegacyRevised.post_webhook facebookPages instagramAccounts axios_get now
       (body req) past = (Ok tt, work ++ [tail]) ∧
     Forall (λ e, is_response e = false) work ∧
     (tail = ack ∨ tail = RespondStatus 404 ∨
      tail = Respond 500 (JStr "Error processing webhook"))).
Proof.
  split_and!.
  - apply processWebhook_ack_first.
  - apply post_webhook_shape.
  - apply revised_post_webhook_shape.
Qed.

(** ** Empty tokens *)




(** ** Letter case *)

(** C7, as stated, fails for [handleComment] of the stand-alone server: its
    lookup lowers both sides, so [@ACME] is a mention of [acme]. *)
Lemma legacy_lookup_ignores_case :
  ¬ (Legacy.mentions (JStr "Hi @ACME") "acme" = Ok true ↔
     Str.is_substring "@acme" "Hi @ACME").
Proof.
  intros [Hmatch _].
  assert (Str.includes "@acme" "Hi @ACME" = true) as Habs; [|by vm_compute in Habs].
  apply includes_spec, Hmatch. by vm_compute.
Qed.

(** C7, amended.  In the services the lookup is an exact, case-sensitive
    substring test: a text matches a username [u] if and only if it contains
    [@u] literally, and matches a page if and only if it contains
    [@PageName] or [@[pageId]] literally; a text that does not contain the
    literal does not match, however it is capitalised.  In [handleComment]
    of the stand-alone server the lookup ignores letter case: a text matches
    [u] if and only if its lower-case form contains [@] followed by the
    lower-case form of [u]. *)
Theorem mention_lookup_is_literal (text u : string) (page : Page.t) :
  (Js.includes (JStr text) ("@" +:+ u) = Ok true ↔ Str.is_substring ("@" +:+ u) text) ∧
  (mentionedUsername_loop (JStr text) [u] =
     Ok (if Str.includes ("@" +:+ u) text then u else "")) ∧
  (page_mentioned (JStr text) page = Ok true ↔
     Str.is_substring ("@" +:+ Page.name page) text ∨
     Str.is_substring ("@[" +:+ Page.id page +:+ "]") text) ∧
  (¬ Str.is_substring ("@" +:+ u) text → Js.includes (JStr text) ("@" +:+ u) = Ok false) ∧
  (Legacy.mentions (JStr text) u = Ok true ↔
     Str.is_substring ("@" +:+ Str.toLowerCase u) (Str.toLowerCase text)).
Proof.
  split_and!.
  - cbn. rewrite <- includes_spec. split; [by intros [=] | by intros ->].
  - cbn. by destruct (Str.includes ("@" +:+ u) text).
  - rewrite page_mentioned_str, <- !includes_spec.
    split; [intros [= H]; by apply orb_true_iff | intros H].
    by apply orb_true_iff in H as ->.
  - intros Hno. cbn. by apply includes_false in Hno as ->.
  - unfold Legacy.mentions. cbn. rewrite <- includes_spec.
    split; [by intros [=] | by intros ->].
Qed.

Lemma mention_lookup_is_literal_witness :
  Js.includes (JStr "Hi @ACME") ("@" +:+ "acme") = Ok false ∧
  Js.includes (JStr "Hi @acme") ("@" +:+ "acme") = Ok true.
Proof.
  split.
  - destruct (mention_lookup_is_literal "Hi @ACME" "acme" (Page.mk "1" "P" "t" None))
      as (_ & _ & _ & Hmiss & _).
    apply Hmiss. apply includes_false. by vm_compute.
  - destruct (mention_lookup_is_literal "Hi @acme" "acme" (Page.mk "1" "P" "t" None))
      as (Hiff & _).
    apply Hiff, includes_spec. by vm_compute.
Defined.

(** The stand-alone server, unlike the extractors, walks through every
    change of an entry: a mention in the second change is mailed. *)
Lemma legacy_examines_later_changes :
  events (Legacy.post_webhook Sample.legacy_pages Sample.accounts Sample.offline
            "2024-01-01T00:00:00.000Z"
            (Sample.payload "instagram"
               [JObj [("changes", JArr [Sample.legacy_comment "nothing here";
                                         Sample.legacy_comment "hello @acme"])]])
            []) =
  [HttpGet "https://graph.facebook.com/v19.0/m1"
     [("fields",
       JStr "id,message,permalink_url,created_time,from{id,name,picture},attachments");
      ("access_token", JStr "tokA")];
   SendMail
     (JObj [("mentionType", JStr "comment");
            ("mentionedUsername", JStr "acme");
            ("error", JStr "Could not fetch post details");
            ("errorMessage", JStr "Network Error");
            ("platform", JStr "facebook");
            ("commentId", JStr "c3");
            ("postId", JStr "m1");
            ("timestamp", JStr "2024-01-01T00:00:00.000Z");
            ("message", JStr "hello @acme")]);
   ack].
Proof. by vm_compute. Qed.
